(** * pyFlexit: the asynchronous Flexit client ([flexit.py])

    A shallow embedding of [custom_components/pyFlexit/flexit.py] and the
    properties of its request / authentication pipeline.

    The client object ([self]) and the outside world (clock, HTTP sessions,
    the network) are threaded explicitly through a state-and-exception monad
    [M].  Python values that come out of [response.json()] are the inductive
    [pyval]; dictionaries are [gmap string _]. *)

From stdpp Require Import gmap strings list fin_maps pretty.
From Stdlib Require Import ZArith QArith Ascii.

#[local] Set Warnings "-register-all".
#[local] Open Scope string_scope.
#[local] Open Scope list_scope.
#[local] Open Scope Z_scope.

(** ** Python values *)

Section PyFlexit.

(** Python's [float] type is kept abstract: no property below depends on
    floating-point arithmetic, only on [float(temp)] giving a value or
    raising. *)
Context {pyfloat : Type}.

Inductive pyval : Type :=
  | PNone
  | PBool (b : bool)
  | PInt (z : Z)
  | PFloat (f : pyfloat)
  | PStr (s : string)
  | PList (l : list pyval)
  | PDict (d : gmap string pyval).

(** ** Exceptions *)

(** Subclasses of [aiohttp.ClientError] that matter to the handlers.
    [ServerTimeoutError] derives from both [ClientError] and
    [asyncio.TimeoutError]. *)
Inductive client_error : Type :=
  | ClientConnectorError
  | ClientResponseError (code : Z)
  | ClientPayloadError
  | ContentTypeError
  | ServerTimeoutError
  | OtherClientError.

Inductive exn : Type :=
  | FlexitConnectionError (msg : string)
  | FlexitError (msg : string) (details : gmap string string)
  | asyncio_TimeoutError
  | aiohttp_ClientError (kind : client_error)
  | socket_gaierror
  | KeyError (key : string)
  | TypeError
  | ValueError
  | JSONDecodeError
  | UnicodeDecodeError
  | OtherException (cls : string).

Inductive result (A : Type) : Type :=
  | Ok (a : A)
  | Err (e : exn).
#[global] Arguments Ok {A} a.
#[global] Arguments Err {A} e.

(** [isinstance(e, asyncio.TimeoutError)] *)
Definition is_TimeoutError (e : exn) : bool :=
  match e with
  | asyncio_TimeoutError => true
  | aiohttp_ClientError ServerTimeoutError => true
  | _ => false
  end.

(** [isinstance(e, (aiohttp.ClientError, aiohttp.ClientResponseError,
    socket.gaierror))] *)
Definition is_ClientError_or_gaierror (e : exn) : bool :=
  match e with
  | aiohttp_ClientError _ => true
  | socket_gaierror => true
  | _ => false
  end.

(** [FlexitConnectionError] and [FlexitError], the two classifications the
    dispatcher raises itself. *)
Definition is_FlexitConnectionError (e : exn) : bool :=
  match e with FlexitConnectionError _ => true | _ => false end.

Definition is_FlexitError (e : exn) : bool :=
  match e with FlexitError _ _ => true | _ => false end.

(** ** Operations on Python values *)

(** [v[k]] for a [str] key [k]: a dictionary looks the key up and raises
    [KeyError] when it is missing; every other JSON-decoded value raises
    [TypeError] (not subscriptable, or indices must be integers). *)
Definition py_getitem (v : pyval) (k : string) : result pyval :=
  match v with
  | PDict d =>
      match d !! k with
      | Some x => Ok x
      | None => Err (KeyError k)
      end
  | _ => Err TypeError
  end.

(** [v == s] for a [str] literal [s]. *)
Definition py_eq_str (v : pyval) (s : string) : bool :=
  match v with
  | PStr t => String.eqb t s
  | _ => false
  end.

(** [needle in hay] on strings. *)
Fixpoint str_in (needle hay : string) : bool :=
  String.prefix needle hay
  || match hay with
     | EmptyString => false
     | String _ rest => str_in needle rest
     end.

Definition dq : string := String "034"%char EmptyString.
Definition nl : string := String "010"%char EmptyString.

(** ** The outside world *)

(** A [yarl.URL], as the expression the client builds it with.  What yarl
    makes of the text it is given (parsing, re-quoting of the path and the
    query, resolution of a reference against its base) is yarl's and is left
    uninterpreted: [URL s] is [URL(s)], [URL_build scheme host] is
    [URL.build(scheme=scheme, host=host)] and [URL_join base ref] is
    [base.join(ref)]. *)
Inductive yarl_URL : Type :=
  | URL (s : string)
  | URL_build (scheme host : string)
  | URL_join (base ref : yarl_URL).

(** The arguments of one [session.request] call. *)
Record request : Type := mkRequest {
  req_method : string;
  req_url : yarl_URL;
  req_data : option string;
  req_headers : gmap string string;
}.

(** An [aiohttp.ClientResponse], seen through the four members the client
    uses: [status], [headers.get("Content-Type")], [await text()] and
    [await json()]. *)
Record ClientResponse : Type := mkResponse {
  resp_status : Z;
  resp_content_type : option string;
  resp_text : result string;
  resp_json : result pyval;
}.

Inductive outcome : Type :=
  | Raises (e : exn)
  | Responds (r : ClientResponse).

(** What awaiting one request yields: the outcome, and how many times the
    calendar date rolled over while the call was in flight. *)
Record reply : Type := mkReply {
  days_passed : nat;
  reply_outcome : outcome;
}.

Inductive session_state : Type := SessionOpen | SessionClosed.

(** The I/O a client performs, in order.  A request is logged together with
    what came back for it. *)
Inductive event : Type :=
  | ev_new_session (sid : nat)
  | ev_request (sid : nat) (req : request) (rep : reply)
  | ev_text
  | ev_json
  | ev_close_session (sid : nat).

Record World : Type := mkWorld {
  today : Z;                                 (* date.today().toordinal() *)
  sessions : list session_state;             (* every ClientSession ever made *)
  trace : list event;                        (* I/O performed so far *)
  network : list event → request → reply;    (* the server and the wire *)
}.

(** ** The client object *)

Record Flexit : Type := mkFlexit {
  _session : option nat;
  _close_session : bool;
  request_timeout : Z;
  username : string;
  password : string;
  api_key : string;
  token : pyval;
  token_refreshdate : Z;
  data : gmap string pyval;
  device_info : gmap string pyval;
}.

Definition with_session (s : option nat) (b : bool) (c : Flexit) : Flexit :=
  mkFlexit s b (request_timeout c) (username c) (password c) (api_key c)
           (token c) (token_refreshdate c) (data c) (device_info c).

Definition with_token (t : pyval) (c : Flexit) : Flexit :=
  mkFlexit (_session c) (_close_session c) (request_timeout c) (username c)
           (password c) (api_key c) t (token_refreshdate c) (data c)
           (device_info c).

Definition with_token_refreshdate (d : Z) (c : Flexit) : Flexit :=
  mkFlexit (_session c) (_close_session c) (request_timeout c) (username c)
           (password c) (api_key c) (token c) d (data c) (device_info c).

Definition with_data (m : gmap string pyval) (c : Flexit) : Flexit :=
  mkFlexit (_session c) (_close_session c) (request_timeout c) (username c)
           (password c) (api_key c) (token c) (token_refreshdate c) m
           (device_info c).

Definition with_device_info (m : gmap string pyval) (c : Flexit) : Flexit :=
  mkFlexit (_session c) (_close_session c) (request_timeout c) (username c)
           (password c) (api_key c) (token c) (token_refreshdate c) (data c) m.

(** ** Collaborators that live outside [flexit.py]

    [const.py] (paths, scheme, host), [models.py] (the two formatters),
    and the built-ins [float] and [urllib.parse.quote] are parameters. *)
Class externals : Type := {
  VENTILATION_MODE_PATH : string;
  VENTILATION_MODE_PUT_PATH : string;
  OUTSIDE_AIR_TEMPERATURE_PATH : string;
  SUPPLY_AIR_TEMPERATURE_PATH : string;
  EXTRACT_AIR_TEMPERATURE_PATH : string;
  EXHAUST_AIR_TEMPERATURE_PATH : string;
  HOME_AIR_TEMPERATURE_PATH : string;
  AWAY_AIR_TEMPERATURE_PATH : string;
  FILTER_STATE_PATH : string;
  FILTER_TIME_FOR_EXCHANGE_PATH : string;
  ROOM_TEMPERATURE_PATH : string;
  ELECTRIC_HEATER_PATH : string;
  SCHEME : string;
  HOST : string;
  TOKEN_PATH : string;
  DATAPOINTS_PATH : string;
  APPLICATION_SOFTWARE_VERSION_PATH : string;
  DEVICE_DESCRIPTION_PATH : string;
  MODEL_NAME_PATH : string;
  MODEL_INFORMATION_PATH : string;
  SERIAL_NUMBER_PATH : string;
  FIRMWARE_REVISION_PATH : string;
  OFFLINE_ONLINE_PATH : string;
  SYSTEM_STATUS_PATH : string;
  LAST_RESTART_REASON_PATH : string;
  float : string → option pyfloat;           (* None: ValueError *)
  quote : string → string;                   (* urllib.parse.quote *)
  FlexitInfo_format_dict : pyval → result (gmap string pyval);
  DeviceInfo_format_dict : pyval → result (gmap string pyval);
}.

Context `{!externals}.

(** ** The monad: client state, world state, exceptions *)

Definition M (A : Type) : Type := Flexit → World → result A * Flexit * World.

Definition ret {A} (a : A) : M A := λ c w, (Ok a, c, w).

Definition raise {A} (e : exn) : M A := λ c w, (Err e, c, w).

Definition bind {A B} (m : M A) (k : A → M B) : M B :=
  λ c w,
    match m c w with
    | (Ok a, c', w') => k a c' w'
    | (Err e, c', w') => (Err e, c', w')
    end.

Definition lift {A} (r : result A) : M A :=
  match r with
  | Ok a => ret a
  | Err e => raise e
  end.

(** [try: m except ... : h e] *)
Definition try_except {A} (m : M A) (h : exn → M A) : M A :=
  λ c w,
    match m c w with
    | (Ok a, c', w') => (Ok a, c', w')
    | (Err e, c', w') => h e c' w'
    end.

Definition get_self : M Flexit := λ c w, (Ok c, c, w).

Definition set_self (f : Flexit → Flexit) : M unit := λ c w, (Ok (), f c, w).

Notation "'let*' x := m 'in' k" := (bind m (λ x, k))
  (at level 10, x name, m at level 100, k at level 200, only parsing).
Notation "m1 ;;; m2" := (bind m1 (λ _, m2))
  (at level 100, m2 at level 200, right associativity, only parsing).

(** *** Primitive effects *)

(** Append to the I/O trace. *)
Definition log (evs : list event) (w : World) : World :=
  mkWorld (today w) (sessions w) (trace w ++ evs) (network w).

(** [date.today()] *)
Definition date_today : M Z := λ c w, (Ok (today w), c, w).

(** [aiohttp.ClientSession()]: a fresh, open session. *)
Definition new_ClientSession : M nat :=
  λ c w,
    let sid := length (sessions w) in
    (Ok sid, c,
     log [ev_new_session sid]
       (mkWorld (today w) (sessions w ++ [SessionOpen]) (trace w) (network w))).

(** The world once request [req] has been answered by [rep]. *)
Definition answered (sid : nat) (req : request) (rep : reply) (w : World)
    : World :=
  log [ev_request sid req rep]
    (mkWorld (today w + Z.of_nat (days_passed rep)) (sessions w) (trace w)
             (network w)).

(** [await session.request(...)] under [async_timeout.timeout]: the request
    goes on the wire; the network answers with a response or an exception
    (the expiry of the timeout and the refusal of a closed session are two
    of them), and time may pass meanwhile. *)
Definition session_request (sid : nat) (req : request) : M ClientResponse :=
  λ c w,
    let rep := network w (trace w) req in
    match reply_outcome rep with
    | Raises e => (Err e, c, answered sid req rep w)
    | Responds resp => (Ok resp, c, answered sid req rep w)
    end.

(** [await session.close()] *)
Definition session_close (sid : nat) : M unit :=
  λ c w,
    (Ok (), c,
     log [ev_close_session sid]
       (mkWorld (today w) (<[sid := SessionClosed]> (sessions w)) (trace w)
                (network w))).

(** [response.raise_for_status()]: aiohttp raises [ClientResponseError]
    when the status is 400 or higher and does nothing below 400. *)
Definition raise_for_status (r : ClientResponse) : M unit :=
  if 400 <=? resp_status r
  then raise (aiohttp_ClientError (ClientResponseError (resp_status r)))
  else ret ().

(** [await response.text()] *)
Definition response_text (r : ClientResponse) : M string :=
  λ c w, (resp_text r, c, log [ev_text] w).

(** [await response.json()] *)
Definition response_json (r : ClientResponse) : M pyval :=
  λ c w, (resp_json r, c, log [ev_json] w).

(** ** [class Flexit] *)

(** The [loop] argument is only handed on to [async_timeout.timeout] and has
    no field here. *)
Definition __init__ (username password api_key : string)
    (session : option nat) (w : World) : Flexit :=
  {| _session := session;
     _close_session := false;
     request_timeout := 8;
     username := username;
     password := password;
     api_key := api_key;
     token := PStr "";
     token_refreshdate := today w;
     data := ∅;
     device_info := ∅ |}.

Definition get_token_body (c : Flexit) : string :=
  "grant_type=password&username=" +:+ username c +:+ "&password=" +:+ password c.

Definition get_token_headers (c : Flexit) : gmap string string :=
  <["Accept" := "application/json"]>
  (<["Accept-Encoding" := "gzip, deflate, br"]>
  (<["Accept-Language" := "en-us"]>
  (<["Content-Type" := "application/json; charset=utf-8"]>
  (<["User-Agent" := "Flexit%20GO/2.0.6 CFNetwork/1128.0.1 Darwin/19.6.0"]>
  (<["Ocp-Apim-Subscription-Key" := api_key c]> ∅))))).

(** ["Bearer " + self.token] raises [TypeError] unless the token is a
    [str]. *)
Definition get_headers (c : Flexit) : result (gmap string string) :=
  match token c with
  | PStr t => Ok (<["Authorization" := "Bearer " +:+ t]> (get_token_headers c))
  | _ => Err TypeError
  end.

Definition _get_request (uri : string) : M ClientResponse :=
  let* c := get_self in
  match _session c with
  | None => raise (OtherException "AttributeError")
  | Some sid =>
      let* headers := lift (get_headers c) in
      session_request sid
        (mkRequest "GET" (URL_join (URL_build SCHEME HOST) (URL uri)) None
           headers)
  end.

Definition _put_request (uri : string) (body : option string) : M ClientResponse :=
  let* c := get_self in
  match _session c with
  | None => raise (OtherException "AttributeError")
  | Some sid =>
      let* headers := lift (get_headers c) in
      session_request sid
        (mkRequest "PUT" (URL_join (URL_build SCHEME HOST) (URL uri)) body
           headers)
  end.

Definition _post_request (uri : string) (body : option string) : M ClientResponse :=
  let* c := get_self in
  match _session c with
  | None => raise (OtherException "AttributeError")
  | Some sid =>
      session_request sid
        (mkRequest "POST" (URL_join (URL_build SCHEME HOST) (URL uri)) body
           (get_token_headers c))
  end.

Definition timeout_error : exn :=
  FlexitConnectionError "Timeout occurred while connecting to Flexit device".

Definition communication_error : exn :=
  FlexitConnectionError "Error occurred while communicating with Flexit device".

Definition unexpected_response (content_type text : string) : exn :=
  FlexitError "Unexpected response from the Flexit device"
    (<["Content-Type" := content_type]> (<["response" := text]> ∅)).

(** The two [except] clauses of [_generic_request], in source order; an
    exception matching neither keeps propagating. *)
Definition request_handler {A} (e : exn) : M A :=
  if is_TimeoutError e then raise timeout_error
  else if is_ClientError_or_gaierror e then raise communication_error
  else raise e.

Definition _generic_request (method url : string) (body : option string)
    : M pyval :=
  let* c := get_self in
  (match _session c with
   | None =>
       let* sid := new_ClientSession in
       set_self (with_session (Some sid) true)
   | Some _ => ret ()
   end) ;;;
  let* response :=
    try_except
      (let* response :=
         (if String.eqb method "POST" then _post_request url body
          else if String.eqb method "PUT" then _put_request url body
          else _get_request url) in
       raise_for_status response ;;;
       ret response)
      request_handler in
  let content_type := default "" (resp_content_type response) in
  if negb (str_in "application/json" content_type) then
    let* text := response_text response in
    raise (unexpected_response content_type text)
  else
    response_json response.

Definition token_request : M pyval :=
  let* c := get_self in
  _generic_request "POST" TOKEN_PATH (Some (get_token_body c)).

Definition set_token : M unit :=
  let* c := get_self in
  let* now := date_today in
  if token_refreshdate c =? now then
    let* response := token_request in
    let* access_token := lift (py_getitem response "access_token") in
    set_self (with_token access_token) ;;;
    let* now' := date_today in
    set_self (with_token_refreshdate (now' + 1))
  else ret ().

Definition put_body (value : string) : string :=
  "{" +:+ dq +:+ "Value" +:+ dq +:+ ": " +:+ dq +:+ value +:+ dq +:+ "}".

Definition get_escaped_datapoints_url (id : string) : string :=
  DATAPOINTS_PATH +:+ quote id.

(** The f-string [pathVariables]: a JSON array literal, one
    [{"DataPoints":"<path>"}] per line. *)
Definition datapoint_entry (path : string) : string :=
  "{" +:+ dq +:+ "DataPoints" +:+ dq +:+ ":" +:+ dq +:+ path +:+ dq +:+ "}".

Definition pathVariables (paths : list string) : string :=
  "[" +:+ nl +:+ "        "
  +:+ String.concat ("," +:+ nl +:+ "        ") (datapoint_entry <$> paths)
  +:+ "]".

Definition update_data_paths : list string :=
  [ VENTILATION_MODE_PATH; OUTSIDE_AIR_TEMPERATURE_PATH;
    SUPPLY_AIR_TEMPERATURE_PATH; EXTRACT_AIR_TEMPERATURE_PATH;
    EXHAUST_AIR_TEMPERATURE_PATH; HOME_AIR_TEMPERATURE_PATH;
    AWAY_AIR_TEMPERATURE_PATH; FILTER_STATE_PATH;
    FILTER_TIME_FOR_EXCHANGE_PATH; ROOM_TEMPERATURE_PATH;
    ELECTRIC_HEATER_PATH ].

Definition update_device_info_paths : list string :=
  [ APPLICATION_SOFTWARE_VERSION_PATH; DEVICE_DESCRIPTION_PATH;
    MODEL_NAME_PATH; MODEL_INFORMATION_PATH; SERIAL_NUMBER_PATH;
    FIRMWARE_REVISION_PATH; OFFLINE_ONLINE_PATH; SYSTEM_STATUS_PATH;
    LAST_RESTART_REASON_PATH ].

Definition filterPath : string := "/DataPoints/Values?filterId=".

Definition update_data : M unit :=
  let* response :=
    _generic_request "GET"
      (filterPath +:+ quote (pathVariables update_data_paths)) None in
  let* formatted := lift (FlexitInfo_format_dict response) in
  set_self (with_data formatted).

Definition update_device_info : M unit :=
  let* response :=
    _generic_request "GET"
      (filterPath +:+ quote (pathVariables update_device_info_paths)) None in
  let* formatted := lift (DeviceInfo_format_dict response) in
  set_self (with_device_info formatted).

(** [float(temp)] *)
Definition py_float (temp : string) : result pyfloat :=
  match float temp with
  | Some f => Ok f
  | None => Err ValueError
  end.

(** [self.data[key] = v] *)
Definition data_setitem (key : string) (v : pyval) : M unit :=
  set_self (λ c, with_data (<[key := v]> (data c)) c).

(** [response["stateTexts"][path] == 'Success'] *)
Definition write_confirmed (response : pyval) (path : string) : M bool :=
  let* stateTexts := lift (py_getitem response "stateTexts") in
  let* status := lift (py_getitem stateTexts path) in
  ret (py_eq_str status "Success").

Definition set_home_temp (temp : string) : M unit :=
  let* response :=
    _generic_request "PUT"
      (get_escaped_datapoints_url HOME_AIR_TEMPERATURE_PATH)
      (Some (put_body temp)) in
  let* confirmed := write_confirmed response HOME_AIR_TEMPERATURE_PATH in
  if confirmed then
    let* f := lift (py_float temp) in
    data_setitem "home_air_temperature" (PFloat f)
  else ret ().

Definition set_away_temp (temp : string) : M unit :=
  let* response :=
    _generic_request "PUT"
      (get_escaped_datapoints_url AWAY_AIR_TEMPERATURE_PATH)
      (Some (put_body temp)) in
  let* confirmed := write_confirmed response AWAY_AIR_TEMPERATURE_PATH in
  if confirmed then
    let* f := lift (py_float temp) in
    data_setitem "away_air_temperature" (PFloat f)
  else ret ().

Definition mode_switcher : gmap string Z :=
  <["Home" := 0]> (<["Away" := 2]> (<["High" := 4]> ∅)).

Definition set_mode (mode : string) : M unit :=
  let mode_int := default (-1) (mode_switcher !! mode) in
  if mode_int =? -1 then ret ()
  else
    let* response :=
      _generic_request "PUT"
        (get_escaped_datapoints_url VENTILATION_MODE_PUT_PATH)
        (Some (put_body (pretty mode_int))) in
    let* confirmed := write_confirmed response VENTILATION_MODE_PUT_PATH in
    if confirmed then data_setitem "ventilation_mode" (PStr mode)
    else ret ().

Definition state_switcher : gmap string Z :=
  <["on" := 1]> (<["off" := 0]> ∅).

Definition set_heater_state (state : string) : M unit :=
  let state_int := default (-1) (state_switcher !! state) in
  if state_int =? -1 then ret ()
  else
    let* response :=
      _generic_request "PUT"
        (get_escaped_datapoints_url ELECTRIC_HEATER_PATH)
        (Some (put_body (pretty state_int))) in
    let* confirmed := write_confirmed response ELECTRIC_HEATER_PATH in
    if confirmed then data_setitem "electric_heater" (PStr state)
    else ret ().

(** [if self._session and self._close_session: await self._session.close()]
    (a [ClientSession] object is always truthy). *)
Definition close : M unit :=
  let* c := get_self in
  match _session c with
  | Some sid => if _close_session c then session_close sid else ret ()
  | None => ret ()
  end.

Definition __aenter__ : M Flexit := get_self.

Definition __aexit__ : M unit := close.

(** ** Callers

    What a caller can do with a client: any of the public coroutines.  An
    exception raised by one call is the caller's to handle; the client and
    the world keep whatever state the call left behind. *)
Inductive operation : Type :=
  | op_set_token
  | op_update_data
  | op_update_device_info
  | op_set_home_temp (temp : string)
  | op_set_away_temp (temp : string)
  | op_set_mode (mode : string)
  | op_set_heater_state (state : string)
  | op_close.

Definition run_op (o : operation) : M unit :=
  match o with
  | op_set_token => set_token
  | op_update_data => update_data
  | op_update_device_info => update_device_info
  | op_set_home_temp temp => set_home_temp temp
  | op_set_away_temp temp => set_away_temp temp
  | op_set_mode mode => set_mode mode
  | op_set_heater_state state => set_heater_state state
  | op_close => close
  end.

Fixpoint run_ops (os : list operation) (c : Flexit) (w : World)
    : Flexit * World :=
  match os with
  | [] => (c, w)
  | o :: os' => let '(_, c', w') := run_op o c w in run_ops os' c' w'
  end.

(** The read and write operations of the pipelines. *)
Definition is_read_or_write (o : operation) : bool :=
  match o with
  | op_set_token | op_close => false
  | _ => true
  end.

(** The four writers share one shape; these tables name, for each, the data
    point written, the cache field, and the value cached on confirmation
    ([None]: nothing can be cached, [float(temp)] raises). *)
Inductive write_op : Type :=
  | write_home_temp (temp : string)
  | write_away_temp (temp : string)
  | write_mode (mode : string)
  | write_heater_state (state : string).

Definition run_write (wo : write_op) : M unit :=
  match wo with
  | write_home_temp temp => set_home_temp temp
  | write_away_temp temp => set_away_temp temp
  | write_mode mode => set_mode mode
  | write_heater_state state => set_heater_state state
  end.

Definition write_path (wo : write_op) : string :=
  match wo with
  | write_home_temp _ => HOME_AIR_TEMPERATURE_PATH
  | write_away_temp _ => AWAY_AIR_TEMPERATURE_PATH
  | write_mode _ => VENTILATION_MODE_PUT_PATH
  | write_heater_state _ => ELECTRIC_HEATER_PATH
  end.

Definition write_field (wo : write_op) : string :=
  match wo with
  | write_home_temp _ => "home_air_temperature"
  | write_away_temp _ => "away_air_temperature"
  | write_mode _ => "ventilation_mode"
  | write_heater_state _ => "electric_heater"
  end.

Definition write_value (wo : write_op) : option pyval :=
  match wo with
  | write_home_temp temp | write_away_temp temp => PFloat <$> float temp
  | write_mode mode => Some (PStr mode)
  | write_heater_state state => Some (PStr state)
  end.

(** The label of a mode / heater write is a key of its [switcher] table
    (always so for the temperature writers, which have no table). *)
Definition label_known (wo : write_op) : bool :=
  match wo with
  | write_home_temp _ | write_away_temp _ => true
  | write_mode mode => bool_decide (is_Some (mode_switcher !! mode))
  | write_heater_state state => bool_decide (is_Some (state_switcher !! state))
  end.

(** What the writer puts in the request body. *)
Definition write_payload (wo : write_op) : string :=
  match wo with
  | write_home_temp temp | write_away_temp temp => temp
  | write_mode mode => pretty (default (-1) (mode_switcher !! mode))
  | write_heater_state state => pretty (default (-1) (state_switcher !! state))
  end.

(** The dispatcher call a writer makes. *)
Definition write_dispatch (wo : write_op) : M pyval :=
  _generic_request "PUT" (get_escaped_datapoints_url (write_path wo))
    (Some (put_body (write_payload wo))).

(** The two readers, likewise. *)
Inductive read_op : Type := read_data | read_device_info.

Definition run_read (ro : read_op) : M unit :=
  match ro with
  | read_data => update_data
  | read_device_info => update_device_info
  end.

Definition read_dispatch (ro : read_op) : M pyval :=
  _generic_request "GET"
    (filterPath +:+ quote (pathVariables
       match ro with
       | read_data => update_data_paths
       | read_device_info => update_device_info_paths
       end)) None.

Definition read_format (ro : read_op)
    : pyval → result (gmap string pyval) :=
  match ro with
  | read_data => FlexitInfo_format_dict
  | read_device_info => DeviceInfo_format_dict
  end.

Definition read_cache (ro : read_op) (c : Flexit) : gmap string pyval :=
  match ro with
  | read_data => data c
  | read_device_info => device_info c
  end.

(** The URL every request is sent to: the reference [uri] joined onto the
    base built from the fixed scheme and host. *)
Definition request_url (uri : string) : yarl_URL :=
  URL_join (URL_build SCHEME HOST) (URL uri).

(** The request [token_request] makes. *)
Definition token_request_message (c : Flexit) : request :=
  mkRequest "POST" (request_url TOKEN_PATH) (Some (get_token_body c))
    (get_token_headers c).

(** The declared content type names JSON. *)
Definition declares_json (resp : ClientResponse) : bool :=
  str_in "application/json" (default "" (resp_content_type resp)).

(** ** Reading the trace *)

(** The events a call added: the trace after it, without the trace before. *)
Definition new_events (w w' : World) : list event :=
  drop (length (trace w)) (trace w').

Definition requests_in (evs : list event) : list request :=
  omap (λ ev, match ev with ev_request _ req _ => Some req | _ => None end) evs.

(** The claim that an operation ensures the credential itself: whenever it
    runs while a refresh is due and dispatches anything, the first request
    on the wire is the token acquisition. *)
Definition ensures_token_first (op : M unit) : Prop :=
  ∀ c w,
    token_refreshdate c = today w →
    let '(_, _, w') := op c w in
    match requests_in (new_events w w') with
    | [] => True
    | req :: _ =>
        req_method req = "POST" ∧ req_url req = request_url TOKEN_PATH
    end.

(** ** The dispatcher, step by step

    The same computation as [_generic_request], written as the sequence of
    its stages; [generic_request_dispatch] below proves the two equal. *)

(** After the lazy-session step: the session used, the client, the world. *)
Definition own_session (c : Flexit) (w : World) : nat * Flexit * World :=
  match _session c with
  | Some sid => (sid, c, w)
  | None =>
      let sid := length (sessions w) in
      (sid, with_session (Some sid) true c,
       log [ev_new_session sid]
         (mkWorld (today w) (sessions w ++ [SessionOpen]) (trace w)
                  (network w)))
  end.

(** The request that goes on the wire for [method], if its headers can be
    built. *)
Definition request_for (method url : string) (body : option string)
    (c : Flexit) : result request :=
  if String.eqb method "POST" then
    Ok (mkRequest "POST" (request_url url) body (get_token_headers c))
  else
    match get_headers c with
    | Err e => Err e
    | Ok headers =>
        if String.eqb method "PUT"
        then Ok (mkRequest "PUT" (request_url url) body headers)
        else Ok (mkRequest "GET" (request_url url) None headers)
    end.

(** What the [except] clauses turn an exception into. *)
Definition classify (e : exn) : exn :=
  if is_TimeoutError e then timeout_error
  else if is_ClientError_or_gaierror e then communication_error
  else e.

(** What the dispatcher returns for a response that arrived. *)
Definition interpret (resp : ClientResponse) (c : Flexit) (w : World)
    : result pyval * Flexit * World :=
  let content_type := default "" (resp_content_type resp) in
  if 400 <=? resp_status resp then (Err communication_error, c, w)
  else if declares_json resp then
    (resp_json resp, c, log [ev_json] w)
  else
    (match resp_text resp with
     | Ok text => Err (unexpected_response content_type text)
     | Err e => Err e
     end, c, log [ev_text] w).

Definition dispatch (method url : string) (body : option string)
    : M pyval :=
  λ c w,
    let '(sid, c1, w1) := own_session c w in
    match request_for method url body c1 with
    | Err e => (Err e, c1, w1)
    | Ok req =>
        let rep := network w1 (trace w1) req in
        match reply_outcome rep with
        | Raises e => (Err (classify e), c1, answered sid req rep w1)
        | Responds resp => interpret resp c1 (answered sid req rep w1)
        end
    end.

(** [c'] is [c] except, possibly, for its two caches. *)
Definition same_but_caches (c c' : Flexit) : Prop :=
  ∃ d i, c' = with_device_info i (with_data d c).

(** How one call may move the session state: [evs] are the events it adds.
    A client that has a session keeps it, and the only change to the
    sessions of the world is that an owned session may get closed; a client
    without one either stays so, having sent nothing, or creates a fresh
    session that it owns. *)
Definition session_step (c : Flexit) (w : World) (c' : Flexit) (w' : World)
    : Prop :=
  ∃ evs,
    trace w' = trace w ++ evs
    ∧ match _session c with
      | Some sid =>
          _session c' = Some sid
          ∧ _close_session c' = _close_session c
          ∧ (sessions w' = sessions w
             ∨ (_close_session c = true
                ∧ sessions w' = <[sid := SessionClosed]> (sessions w)))
      | None =>
          (_session c' = None
           ∧ _close_session c' = _close_session c
           ∧ sessions w' = sessions w
           ∧ requests_in evs = [])
          ∨ (_session c' = Some (length (sessions w))
             ∧ _close_session c' = true
             ∧ sessions w' = sessions w ++ [SessionOpen])
      end.

(** The state of a client that was constructed without a session in world
    [w0]: the sessions that existed then are untouched, and the client
    either has no session, has its close flag down and has sent nothing, or
    has a session made after [w0] with the close flag up. *)
Definition owns_its_session (w0 : World) (c : Flexit) (w : World) : Prop :=
  take (length (sessions w0)) (sessions w) = sessions w0
  ∧ ∃ evs,
      trace w = trace w0 ++ evs
      ∧ match _session c with
        | None => _close_session c = false ∧ requests_in evs = []
        | Some sid =>
            _close_session c = true
            ∧ (length (sessions w0) ≤ sid < length (sessions w))%nat
        end.

(** ** Sessions in the trace *)

(** The sessions the events create, and the sessions the requests go
    through. *)
Definition sessions_made (evs : list event) : list nat :=
  omap (λ ev, match ev with ev_new_session sid => Some sid | _ => None end) evs.

Definition sessions_used (evs : list event) : list nat :=
  omap (λ ev, match ev with ev_request sid _ _ => Some sid | _ => None end) evs.

(** What one call adds to the trace, as far as sessions go: a client with a
    session keeps it, makes none and sends through it; a client without
    one either stays so and sends nothing, or makes exactly one and sends
    through it. *)
Definition session_events (c c' : Flexit) (evs : list event) : Prop :=
  match _session c with
  | Some sid =>
      _session c' = Some sid
      ∧ sessions_made evs = []
      ∧ Forall (eq sid) (sessions_used evs)
  | None =>
      (_session c' = None ∧ sessions_made evs = [] ∧ sessions_used evs = [])
      ∨ ∃ sid,
          _session c' = Some sid
          ∧ sessions_made evs = [sid]
          ∧ Forall (eq sid) (sessions_used evs)
  end.

(** ** The request of each operation

    The verb, URL and body of the request an operation makes; [close]
    makes none.  The URL is given as the reference the operation hands to
    yarl, joined onto the fixed base. *)
Definition sends (o : operation) (c : Flexit) (req : request) : Prop :=
  match o with
  | op_set_token =>
      req_method req = "POST" ∧ req_url req = request_url TOKEN_PATH
      ∧ req_data req = Some (get_token_body c)
  | op_update_data =>
      req_method req = "GET"
      ∧ req_url req
        = request_url (filterPath +:+ quote (pathVariables update_data_paths))
      ∧ req_data req = None
  | op_update_device_info =>
      req_method req = "GET"
      ∧ req_url req
        = request_url
            (filterPath +:+ quote (pathVariables update_device_info_paths))
      ∧ req_data req = None
  | op_set_home_temp temp =>
      req_method req = "PUT"
      ∧ req_url req = request_url (get_escaped_datapoints_url HOME_AIR_TEMPERATURE_PATH)
      ∧ req_data req = Some (put_body temp)
  | op_set_away_temp temp =>
      req_method req = "PUT"
      ∧ req_url req = request_url (get_escaped_datapoints_url AWAY_AIR_TEMPERATURE_PATH)
      ∧ req_data req = Some (put_body temp)
  | op_set_mode mode =>
      req_method req = "PUT"
      ∧ req_url req = request_url (get_escaped_datapoints_url VENTILATION_MODE_PUT_PATH)
      ∧ ∃ code, mode_switcher !! mode = Some code
                ∧ req_data req = Some (put_body (pretty code))
  | op_set_heater_state state =>
      req_method req = "PUT"
      ∧ req_url req = request_url (get_escaped_datapoints_url ELECTRIC_HEATER_PATH)
      ∧ ∃ code, state_switcher !! state = Some code
                ∧ req_data req = Some (put_body (pretty code))
  | op_close => False
  end.

(** The fields of the caches an operation leaves alone. *)
Definition keeps_caches (o : operation) (c c' : Flexit) : Prop :=
  match o with
  | op_set_token | op_close =>
      data c' = data c ∧ device_info c' = device_info c
  | op_update_data => device_info c' = device_info c
  | op_update_device_info => data c' = data c
  | op_set_home_temp _ =>
      device_info c' = device_info c
      ∧ ∀ key, key ≠ "home_air_temperature" → data c' !! key = data c !! key
  | op_set_away_temp _ =>
      device_info c' = device_info c
      ∧ ∀ key, key ≠ "away_air_temperature" → data c' !! key = data c !! key
  | op_set_mode _ =>
      device_info c' = device_info c
      ∧ ∀ key, key ≠ "ventilation_mode" → data c' !! key = data c !! key
  | op_set_heater_state _ =>
      device_info c' = device_info c
      ∧ ∀ key, key ≠ "electric_heater" → data c' !! key = data c !! key
  end.

End PyFlexit.

#[global] Arguments pyval : clear implicits.
#[global] Arguments externals : clear implicits.

(** ** A concrete environment

    An instance of the collaborators and a few worlds, to run the client on
    concrete inputs.  Floats are rationals read from decimal literals; the
    paths are stand-ins for the constants of [const.py]. *)
Module Sample.

Definition digit_of (a : ascii) : option Z :=
  let n := Z.of_nat (nat_of_ascii a) in
  if (48 <=? n) && (n <=? 57) then Some (n - 48) else None.

(** [digits.digits] read as the rational [mant / scale]. *)
Fixpoint decimal (dot : bool) (mant : Z) (scale : positive) (s : string)
    : option Q :=
  match s with
  | EmptyString => Some (Qmake mant scale)
  | String a rest =>
      if Ascii.eqb a "."%char then
        if dot then None else decimal true mant scale rest
      else
        match digit_of a with
        | Some d =>
            decimal dot (10 * mant + d)
                    (if dot then (10 * scale)%positive else scale) rest
        | None => None
        end
  end.

Definition decimal_float (s : string) : option Q :=
  match s with
  | EmptyString => None
  | _ => decimal false 0 1 s
  end.

Definition hex_digit (n : N) : ascii :=
  ascii_of_N (if (n <? 10)%N then 48 + n else 55 + n)%N.

(** Percent-encoding of ASCII text, keeping letters, digits and [_.-~/]. *)
Definition quote_char (a : ascii) : string :=
  let n := N_of_ascii a in
  if ((48 <=? n) && (n <=? 57) || (65 <=? n) && (n <=? 90)
      || (97 <=? n) && (n <=? 122)
      || bool_decide (n ∈ [45; 46; 47; 95; 126]))%N
  then String a EmptyString
  else String "%"%char
         (String (hex_digit (n / 16)) (String (hex_digit (n mod 16)) EmptyString)).

Fixpoint percent_quote (s : string) : string :=
  match s with
  | EmptyString => EmptyString
  | String a rest => quote_char a +:+ percent_quote rest
  end.

(** Stand-in formatter: the decoded payload must be a dictionary and is
    cached as it is. *)
Definition format_dict (response : pyval Q) : result (gmap string (pyval Q)) :=
  match response with
  | PDict d => Ok d
  | _ => Err TypeError
  end.

#[export] Instance ext : externals Q := {|
  VENTILATION_MODE_PATH := "dp;ventilation_mode";
  VENTILATION_MODE_PUT_PATH := "dp;ventilation_mode_put";
  OUTSIDE_AIR_TEMPERATURE_PATH := "dp;outside_air_temperature";
  SUPPLY_AIR_TEMPERATURE_PATH := "dp;supply_air_temperature";
  EXTRACT_AIR_TEMPERATURE_PATH := "dp;extract_air_temperature";
  EXHAUST_AIR_TEMPERATURE_PATH := "dp;exhaust_air_temperature";
  HOME_AIR_TEMPERATURE_PATH := "dp;home_air_temperature";
  AWAY_AIR_TEMPERATURE_PATH := "dp;away_air_temperature";
  FILTER_STATE_PATH := "dp;filter_state";
  FILTER_TIME_FOR_EXCHANGE_PATH := "dp;filter_time_for_exchange";
  ROOM_TEMPERATURE_PATH := "dp;room_temperature";
  ELECTRIC_HEATER_PATH := "dp;electric_heater";
  SCHEME := "https";
  HOST := "api.flexit.example";
  TOKEN_PATH := "/Token";
  DATAPOINTS_PATH := "/DataPoints/";
  APPLICATION_SOFTWARE_VERSION_PATH := "dp;application_software_version";
  DEVICE_DESCRIPTION_PATH := "dp;device_description";
  MODEL_NAME_PATH := "dp;model_name";
  MODEL_INFORMATION_PATH := "dp;model_information";
  SERIAL_NUMBER_PATH := "dp;serial_number";
  FIRMWARE_REVISION_PATH := "dp;firmware_revision";
  OFFLINE_ONLINE_PATH := "dp;offline_online";
  SYSTEM_STATUS_PATH := "dp;system_status";
  LAST_RESTART_REASON_PATH := "dp;last_restart_reason";
  float := decimal_float;
  quote := percent_quote;
  FlexitInfo_format_dict := format_dict;
  DeviceInfo_format_dict := format_dict;
|}.

(** A server that answers every request the same way, on the same day. *)
Definition answering (o : outcome (pyfloat := Q)) (day : Z)
    : World (pyfloat := Q) :=
  {| today := day;
     sessions := [];
     trace := [];
     network := λ _ _, mkReply 0 o |}.

(** A 2xx/3xx/4xx JSON response with a decoded body. *)
Definition json_response (status : Z) (body : pyval Q)
    : ClientResponse (pyfloat := Q) :=
  {| resp_status := status;
     resp_content_type := Some "application/json; charset=utf-8";
     resp_text := Ok "";
     resp_json := Ok body |}.

(** An HTML page served with status 200. *)
Definition html_response (page : string) : ClientResponse (pyfloat := Q) :=
  {| resp_status := 200;
     resp_content_type := Some "text/html";
     resp_text := Ok page;
     resp_json := Err (aiohttp_ClientError ContentTypeError) |}.

Definition day0 : Z := 739000.

(** A client as [Flexit(username, password, api_key, loop)] makes it. *)
Definition fresh (w : World (pyfloat := Q)) : Flexit :=
  __init__ "user" "secret" "key" None w.

(** The request a dispatcher call of [c] sends. *)
Definition the_request (method url : string) (body : option string)
    (c : Flexit (pyfloat := Q)) : request :=
  match request_for method url body c with
  | Ok req => req
  | Err _ => mkRequest "" (URL "") None ∅
  end.

(** A write response: [{"stateTexts": {...}}]. *)
Definition state_texts (entries : gmap string (pyval Q)) : pyval Q :=
  PDict (<["stateTexts" := PDict entries]> ∅).

(** Worlds: the server answers 200 with an empty JSON object; confirms the
    write of the home temperature; rejects it; answers with no status for
    it; hands out a token; answers without a token; serves a JSON body that
    does not decode; serves an HTML page; answers 304 with a JSON body;
    answers 500; does not answer in time. *)
Definition w_empty : World := answering (Responds (json_response 200 (PDict ∅))) day0.

Definition confirmed : pyval Q :=
  state_texts (<[HOME_AIR_TEMPERATURE_PATH := PStr "Success"]> ∅).

Definition w_confirmed : World := answering (Responds (json_response 200 confirmed)) day0.

Definition w_rejected : World :=
  answering (Responds (json_response 200
    (state_texts (<[HOME_AIR_TEMPERATURE_PATH := PStr "Failed"]> ∅)))) day0.

Definition w_no_status : World :=
  answering (Responds (json_response 200 (state_texts ∅))) day0.

Definition token_document : pyval Q :=
  PDict (<["access_token" := PStr "t0k3n"]> ∅).

Definition w_token : World := answering (Responds (json_response 200 token_document)) day0.

Definition broken_json : ClientResponse (pyfloat := Q) :=
  {| resp_status := 200;
     resp_content_type := Some "application/json";
     resp_text := Ok "{";
     resp_json := Err JSONDecodeError |}.

Definition w_broken_json : World := answering (Responds broken_json) day0.

Definition busy_page : string := "<html>busy</html>".

Definition w_html : World := answering (Responds (html_response busy_page)) day0.

Definition w_304 : World :=
  answering (Responds (json_response 304 (PDict ∅))) day0.

Definition w_500 : World :=
  answering (Responds (json_response 500 (PDict ∅))) day0.

Definition w_timeout : World := answering (Raises asyncio_TimeoutError) day0.

(** A cache holding a field the next response will not have. *)
Definition stale_cache : gmap string (pyval Q) :=
  <["filter_state" := PStr "dirty"]> ∅.

(** A world in which the caller already holds an open session, number 0. *)
Definition w_shared : World :=
  {| today := day0;
     sessions := [SessionOpen];
     trace := [];
     network := network w_empty |}.

Definition six_operations : list operation :=
  [ op_update_data; op_update_device_info; op_set_home_temp "21.5";
    op_set_away_temp "18"; op_set_mode "Home"; op_set_heater_state "on" ].

(** More worlds: the session refuses the request; the token endpoint
    answers with [null] for the token; the token endpoint answers well, one
    day after [day0]. *)
Definition w_refused : World :=
  answering (Raises (OtherException "RuntimeError")) day0.

Definition null_token_document : pyval Q :=
  PDict (<["access_token" := PNone]> ∅).

Definition w_null_token : World :=
  answering (Responds (json_response 200 null_token_document)) day0.

Definition w_next_day : World :=
  answering (Responds (json_response 200 token_document)) (day0 + 1).

(** A client that has read once and so owns session 0, and the world it
    left behind. *)
Definition after_one_read : Flexit * World :=
  run_ops [op_update_data] (fresh w_empty) w_empty.

(** A page whose bytes do not decode in the charset it declares: reading
    its text raises. *)
Definition undecodable_page : ClientResponse (pyfloat := Q) :=
  {| resp_status := 200;
     resp_content_type := Some "text/html; charset=utf-8";
     resp_text := Err UnicodeDecodeError;
     resp_json := Err (aiohttp_ClientError ContentTypeError) |}.

Definition w_undecodable : World := answering (Responds undecodable_page) day0.

(** A JSON response whose body breaks off while it is read. *)
Definition truncated_json : ClientResponse (pyfloat := Q) :=
  {| resp_status := 200;
     resp_content_type := Some "application/json";
     resp_text := Err (aiohttp_ClientError ClientPayloadError);
     resp_json := Err (aiohttp_ClientError ClientPayloadError) |}.

Definition w_truncated : World := answering (Responds truncated_json) day0.

(** The token endpoint answers without a token, and midnight passes while
    the request is in flight. *)
Definition w_midnight : World :=
  {| today := day0;
     sessions := [];
     trace := [];
     network := λ _ _, mkReply 1 (Responds (json_response 200 (PDict ∅))) |}.

End Sample.

(** * Properties *)

Section Properties.

Context {pyfloat : Type} `{!externals pyfloat}.
Implicit Types (c : @Flexit pyfloat) (w : @World pyfloat).
Implicit Types (resp : @ClientResponse pyfloat) (rep : @reply pyfloat).

(** String and dictionary literals stay folded during simplification. *)
#[local] Arguments get_token_headers : simpl never.
#[local] Arguments get_token_body : simpl never.
#[local] Arguments token_request_message : simpl never.
#[local] Arguments unexpected_response : simpl never.
#[local] Arguments put_body : simpl never.
#[local] Arguments get_escaped_datapoints_url : simpl never.
#[local] Arguments pathVariables : simpl never.
#[local] Arguments mode_switcher : simpl never.
#[local] Arguments state_switcher : simpl never.
#[local] Arguments timeout_error : simpl never.
#[local] Arguments communication_error : simpl never.
#[local] Arguments String.append : simpl never.
#[local] Arguments pretty : simpl never.

Ltac unfold_M :=
  unfold _get_request, _put_request, _post_request, request_handler,
    raise_for_status, response_text, response_json, session_request,
    new_ClientSession, try_except, bind, lift, ret, raise, get_self,
    set_self, get_headers in *.

(** ** The dispatcher *)

Lemma generic_request_dispatch method url body c w :
  _generic_request method url body c w = dispatch method url body c w.
Proof.
  unfold _generic_request, dispatch, own_session, request_for, request_url,
    interpret, classify, declares_json.
  unfold_M.
  destruct (String.eqb method "POST"); [|destruct (String.eqb method "PUT")].
  all: destruct (_session c) as [sid|] eqn:Hs;
    cbn [_session with_session token]; rewrite ?Hs.
  all: try destruct (token c).
  all: try (cbn; done).
  all: match goal with
       | |- context [reply_outcome ?r] => destruct (reply_outcome r) as [e|resp]
       end.
  all: try (destruct (is_TimeoutError e);
            [done|destruct (is_ClientError_or_gaierror e); done]).
  all: destruct (400 <=? resp_status resp);
    [done|cbn; destruct (str_in _ _); cbn; [done|by destruct (resp_text resp)]].
Qed.

Lemma new_events_app w w' evs :
  trace w' = trace w ++ evs → new_events w w' = evs.
Proof. unfold new_events. intros ->. by rewrite drop_app_length. Qed.

Lemma new_events_refl w : new_events w w = [].
Proof. apply new_events_app. by rewrite app_nil_r. Qed.

Lemma py_eq_str_true (v : pyval pyfloat) s :
  py_eq_str v s = true ↔ v = PStr s.
Proof.
  destruct v; cbn; try (split; [discriminate|congruence]).
  rewrite String.eqb_eq. split; congruence.
Qed.

(** Case analysis on a run of the dispatcher: session present or not,
    headers built or not, what the network answered, and which branch of the
    response handling was taken. *)
Ltac dispatch_cases :=
  unfold dispatch, own_session, interpret;
  destruct (_session _) as [?sid|] eqn:?Hsess;
  (destruct (request_for _ _ _ _) as [?req|?e] eqn:?Hreq;
   [ match goal with
     | |- context [reply_outcome ?r] =>
         destruct r as [?days [?e|?resp]] eqn:?Hrep
     end;
     cbn [reply_outcome days_passed];
     [ | destruct (400 <=? resp_status _) eqn:?Hstatus;
         [ | destruct (declares_json _) eqn:?Hjson;
             [ | try destruct (@resp_text pyfloat _) as [?text|?e] eqn:?Htext ] ] ]
   | ]).

Ltac simpl_events :=
  unfold new_events in *; cbn [trace log answered] in *;
  rewrite <- ?app_assoc in *; rewrite ?drop_app_length, ?drop_all in *;
  cbn [app] in *.

(** Pick the one request out of a short list of new events. *)
Ltac unify_eqs :=
  simplify_eq/=;
  repeat match goal with
  | H1 : ?x = _, H2 : ?x = _ |- _ =>
      first [ is_var x; fail 1 | rewrite H1 in H2; simplify_eq/= ]
  | H : ?x = _ |- context [match ?x with _ => _ end] => rewrite H
  end.

Ltac not_in_list :=
  rewrite ?not_elem_of_cons; repeat split; try discriminate;
  apply not_elem_of_nil.

Ltac pick_request H :=
  cbn in H; rewrite ?elem_of_cons, ?elem_of_nil in H; destruct_or?;
  try (match type of H with False => destruct H end);
  simplify_eq/=; unify_eqs.

(** C6, as the code has it: for a response that arrived (status below
    400, so the status check passed) whose declared Content-Type does not
    contain "application/json", [response.json()] is never called and the
    body text is read.  When [response.text()] returns, the dispatcher
    raises [FlexitError] carrying that content type and the text; when
    [response.text()] itself raises, its exception reaches the caller as it
    is, in place of the [FlexitError]. *)
Theorem C6_content_type_guard method url body c w sid req rep resp :
  let '(r, _, w') := _generic_request method url body c w in
  ev_request sid req rep ∈ new_events w w' →
  reply_outcome rep = Responds resp →
  resp_status resp < 400 →
  declares_json resp = false →
  (ev_json ∉ new_events w w')
  ∧ ev_text ∈ new_events w w'
  ∧ (∀ text, resp_text resp = Ok text →
      ∃ msg details,
        r = Err (FlexitError msg details)
        ∧ details !! "Content-Type" = Some (default "" (resp_content_type resp))
        ∧ details !! "response" = Some text)
  ∧ (∀ e, resp_text resp = Err e → r = Err e).
Proof.
  rewrite generic_request_dispatch. dispatch_cases; simpl_events.
  all: intros Hin Hout Hlt Hct.
  all: pick_request Hin.
  all: try (apply Z.leb_le in Hstatus; lia).
  all: split; [not_in_list|].
  all: split; [rewrite !elem_of_cons; auto|].
  all: split; [intros text' ?|intros e' ?]; unify_eqs; try done.
  all: eexists _, _; split; [reflexivity|]; by simplify_map_eq.
Qed.

(** C3, as the code has it: when the response arrived with a status below
    400 and a content type that names JSON, whatever [response.json()]
    raises reaches the caller as it is; the dispatcher does not turn it into
    [FlexitConnectionError] or [FlexitError]. *)
Theorem C3_decode_error_propagates method url body c w sid req rep resp e :
  let '(r, _, w') := _generic_request method url body c w in
  ev_request sid req rep ∈ new_events w w' →
  reply_outcome rep = Responds resp →
  resp_status resp < 400 →
  declares_json resp = true →
  resp_json resp = Err e →
  r = Err e.
Proof.
  rewrite generic_request_dispatch. dispatch_cases; simpl_events.
  all: intros Hin Hout Hlt Hct Hdec.
  all: pick_request Hin.
  all: try (apply Z.leb_le in Hstatus; lia).
  all: done.
Qed.

(** C5, as the code has it: while the request is awaited, a timeout, a DNS
    failure, any [aiohttp] client error and a response with status 400 or
    higher all reach the caller as [FlexitConnectionError]; the dispatcher
    returns data only for a response whose status is below 400.  The
    handlers and the timeout end with the status check: once a response
    with a status below 400 has arrived, whatever reading its body raises
    ([response.json()] for a JSON content type, [response.text()]
    otherwise), a client error or a timeout included, reaches the caller as
    it is. *)
Theorem C5_transport_failures method url body c w sid req rep :
  let '(r, _, w') := _generic_request method url body c w in
  ev_request sid req rep ∈ new_events w w' →
  (reply_outcome rep = Raises asyncio_TimeoutError → r = Err timeout_error)
  ∧ (reply_outcome rep = Raises socket_gaierror → r = Err communication_error)
  ∧ (∀ kind, reply_outcome rep = Raises (aiohttp_ClientError kind) →
       r = Err (if is_TimeoutError (aiohttp_ClientError kind)
                then timeout_error else communication_error))
  ∧ (∀ resp, reply_outcome rep = Responds resp → 400 ≤ resp_status resp →
       r = Err communication_error)
  ∧ (∀ v, r = Ok v →
       ∃ resp, reply_outcome rep = Responds resp ∧ resp_status resp < 400)
  ∧ (∀ resp e, reply_outcome rep = Responds resp → resp_status resp < 400 →
       (if declares_json resp then resp_json resp = Err e
        else resp_text resp = Err e) →
       r = Err e).
Proof.
  rewrite generic_request_dispatch. dispatch_cases; simpl_events.
  all: intros Hin; pick_request Hin.
  all: split_and!; try (intros; simplify_eq/=; done).
  all: try (intros kind ?; simplify_eq/=; unfold classify; by destruct kind).
  all: try (intros resp' ? ?; simplify_eq/=; apply Z.leb_gt in Hstatus; lia).
  all: try (intros resp' e' ? ? Hread; simplify_eq/=;
            first [ apply Z.leb_le in Hstatus; lia
                  | rewrite Hjson in Hread; congruence ]).
  all: intros v ?; eexists; split; [done|by apply Z.leb_gt in Hstatus].
Qed.

(** ** The credential manager *)

(** Whenever the refresh is due, [set_token] sends the token request, and
    nothing else. *)
Lemma set_token_due_requests c w :
  token_refreshdate c = today w →
  requests_in (new_events w (set_token c w).2) = [token_request_message c].
Proof.
  intros Hdue.
  unfold set_token, token_request, date_today. unfold_M. cbv beta iota.
  rewrite Hdue, Z.eqb_refl. cbv beta iota.
  rewrite generic_request_dispatch. dispatch_cases; try discriminate.
  all: unfold request_for in *; simplify_eq/=.
  all: repeat case_match; simplify_eq/=; simpl_events.
  all: done.
Qed.

(** Not due yet, or overdue: the gate compares for equality, so on any
    other date nothing is sent and nothing changes. *)
Lemma set_token_other_date c w :
  token_refreshdate c ≠ today w → set_token c w = (Ok (), c, w).
Proof.
  intros Hne. unfold set_token, date_today. unfold_M. cbv beta iota.
  apply Z.eqb_neq in Hne. by rewrite Hne.
Qed.

(** C4: when the stored refresh date is today, [set_token] puts exactly one
    request on the wire, the token acquisition, and once that is answered
    with a JSON document holding [access_token], the token is stored and
    the refresh date becomes the current date plus one day; when the stored
    refresh date is after today, nothing is sent and nothing changes. *)
Theorem C4_token_refresh_gating c w :
  let '(r, c', w') := set_token c w in
  (token_refreshdate c = today w →
     requests_in (new_events w w') = [token_request_message c]
     ∧ ∀ sid req rep resp response access_token,
         ev_request sid req rep ∈ new_events w w' →
         reply_outcome rep = Responds resp →
         resp_status resp < 400 →
         declares_json resp = true →
         resp_json resp = Ok response →
         py_getitem response "access_token" = Ok access_token →
         r = Ok ()
         ∧ token c' = access_token
         ∧ today w' = today w + Z.of_nat (days_passed rep)
         ∧ token_refreshdate c' = today w' + 1)
  ∧ (today w < token_refreshdate c → r = Ok () ∧ c' = c ∧ w' = w).
Proof.
  pose proof (set_token_due_requests c w) as Hsent.
  revert Hsent.
  unfold set_token, token_request, date_today. unfold_M. cbv beta iota.
  destruct (token_refreshdate c =? today w) eqn:Hdue; cbv beta iota.
  2: { apply Z.eqb_neq in Hdue. by split. }
  apply Z.eqb_eq in Hdue.
  rewrite generic_request_dispatch. dispatch_cases; try discriminate.
  all: unfold request_for in *; simplify_eq/=.
  all: repeat case_match; simplify_eq/=; simpl_events.
  all: intros Hsent; (split; [intros _|lia]).
  all: (split; [by apply Hsent|]).
  all: intros ?????? Hin ?????; pick_request Hin.
  all: try (apply Z.leb_le in Hstatus; lia).
  all: done.
Qed.

(** C10, as the code has it: when the token response decodes but has no
    [access_token], the lookup error reaches the caller and neither the
    token nor the refresh date has changed.  What the next [set_token] does
    in the world the failed call leaves depends on the calendar: if the
    date did not change while the request was in flight, the refresh date
    is still today and the token request is sent again; if the date did
    change, the refresh date is now before today and the next [set_token]
    does nothing. *)
Theorem C10_failed_acquisition_keeps_credential
    c w sid req rep resp response e :
  token_refreshdate c = today w →
  let '(r, c', w') := set_token c w in
  ev_request sid req rep ∈ new_events w w' →
  reply_outcome rep = Responds resp →
  resp_status resp < 400 →
  declares_json resp = true →
  resp_json resp = Ok response →
  py_getitem response "access_token" = Err e →
  r = Err e
  ∧ (∀ d, response = PDict d → e = KeyError "access_token")
  ∧ token c' = token c
  ∧ token_refreshdate c' = token_refreshdate c
  ∧ today w' = today w + Z.of_nat (days_passed rep)
  ∧ (days_passed rep = 0%nat →
       token_refreshdate c' = today w'
       ∧ requests_in (new_events w' (set_token c' w').2)
         = [token_request_message c])
  ∧ (days_passed rep ≠ 0%nat →
       token_refreshdate c' < today w'
       ∧ set_token c' w' = (Ok (), c', w')).
Proof.
  intros Hdue.
  destruct (set_token c w) as [[r c'] w'] eqn:Hrun.
  intros Hin Hout Hlt Hct Hdec Hget.
  assert (r = Err e ∧ token c' = token c
          ∧ token_refreshdate c' = token_refreshdate c
          ∧ today w' = today w + Z.of_nat (days_passed rep)
          ∧ token_request_message c' = token_request_message c)
    as (-> & Htok & Hdate & Hday & Hmsg).
  { revert Hrun Hin.
    unfold set_token, token_request, date_today. unfold_M. cbv beta iota.
    rewrite Hdue, Z.eqb_refl. cbv beta iota.
    rewrite generic_request_dispatch. dispatch_cases; try discriminate.
    all: unfold request_for in *; simplify_eq/=.
    all: repeat case_match; simplify_eq/=.
    all: intros ? Hin; simplify_eq/=; simpl_events; pick_request Hin.
    all: try (apply Z.leb_le in Hstatus; lia).
    all: done. }
  split_and!; try done.
  - intros d ->. unfold py_getitem in Hget.
    destruct (d !! "access_token"); [discriminate|by injection Hget as <-].
  - intros Hsame.
    split; [lia|rewrite <- Hmsg; apply set_token_due_requests; lia].
  - intros Hlater. split; [lia|apply set_token_other_date; lia].
Qed.

(** ** The read and write pipelines *)

Lemma same_but_caches_refl c : same_but_caches c c.
Proof. exists (data c), (device_info c). by destruct c. Qed.

Lemma same_but_caches_data c d : same_but_caches c (with_data d c).
Proof. exists d, (device_info c). by destruct c. Qed.

Lemma same_but_caches_device_info c i :
  same_but_caches c (with_device_info i c).
Proof. exists (data c), i. by destruct c. Qed.

(** The tables, spelt out. *)
Lemma mode_switcher_labels mode :
  is_Some (mode_switcher !! mode) ↔ mode ∈ ["Home"; "Away"; "High"].
Proof.
  rewrite !elem_of_cons, elem_of_nil. split.
  - intros [z Hz]. unfold mode_switcher in Hz.
    repeat (apply lookup_insert_Some in Hz as [[<- _]|[_ Hz]]; [by auto|]).
    by rewrite lookup_empty in Hz.
  - intros [->|[->|[->|[]]]]; by eexists.
Qed.

Lemma state_switcher_labels state :
  is_Some (state_switcher !! state) ↔ state ∈ ["on"; "off"].
Proof.
  rewrite !elem_of_cons, elem_of_nil. split.
  - intros [z Hz]. unfold state_switcher in Hz.
    repeat (apply lookup_insert_Some in Hz as [[<- _]|[_ Hz]]; [by auto|]).
    by rewrite lookup_empty in Hz.
  - intros [->|[->|[]]]; by eexists.
Qed.

Lemma mode_switcher_known mode :
  is_Some (mode_switcher !! mode) →
  (default (-1) (mode_switcher !! mode) =? -1) = false.
Proof.
  rewrite mode_switcher_labels, !elem_of_cons, elem_of_nil.
  intros [->|[->|[->|[]]]]; reflexivity.
Qed.

Lemma state_switcher_known state :
  is_Some (state_switcher !! state) →
  (default (-1) (state_switcher !! state) =? -1) = false.
Proof.
  rewrite state_switcher_labels, !elem_of_cons, elem_of_nil.
  intros [->|[->|[]]]; reflexivity.
Qed.

(** The dispatcher leaves the client as it was, apart from the session it
    may have created. *)
Lemma generic_request_client method url body c w :
  (_generic_request method url body c w).1.2 = (own_session c w).1.2.
Proof.
  rewrite generic_request_dispatch. dispatch_cases; done.
Qed.

Lemma own_session_data c w : data (own_session c w).1.2 = data c.
Proof. unfold own_session. by destruct (_session c). Qed.

(** C7: a label outside the lookup table makes [set_mode] and
    [set_heater_state] return at once: no request, no event, the client and
    the world exactly as before, and no exception. *)
Theorem C7_unknown_label_is_noop wo c w :
  label_known wo = false → run_write wo c w = (Ok (), c, w).
Proof.
  destruct wo as [temp|temp|mode|state]; cbn [label_known run_write];
    try discriminate.
  - intros Hno%bool_decide_eq_false%eq_None_not_Some.
    unfold set_mode. by rewrite Hno.
  - intros Hno%bool_decide_eq_false%eq_None_not_Some.
    unfold set_heater_state. by rewrite Hno.
Qed.

(** C8: once the dispatcher has returned the decoded payload and the
    formatter has accepted it, the read succeeds and the cache is the
    formatter's output, whole: a field the output lacks is absent from the
    cache, whatever was cached before. *)
Theorem C8_full_replace ro c w response c1 w1 formatted :
  read_dispatch ro c w = (Ok response, c1, w1) →
  read_format ro response = Ok formatted →
  let '(r, c', w') := run_read ro c w in
  r = Ok () ∧ w' = w1
  ∧ read_cache ro c' = formatted
  ∧ (∀ field, formatted !! field = None → read_cache ro c' !! field = None).
Proof.
  destruct ro; cbn [read_dispatch read_format run_read read_cache].
  all: unfold read_dispatch; intros Hdisp Hfmt.
  all: unfold update_data, update_device_info; unfold_M.
  all: by rewrite Hdisp, Hfmt.
Qed.

(** C2, as the code has it: once the dispatcher has returned the decoded
    response of a write, what happens is decided by the status found under
    ["stateTexts"] for the data point.  With the string "Success", a mode
    or heater write caches its label and returns; a temperature write
    caches [float(temp)] and returns when [temp] reads as a float, and
    otherwise raises [ValueError] with the cache unchanged.  With any other
    status the cache is unchanged and the call returns normally.  When the
    status cannot be looked up, the cache is unchanged and the lookup error
    is raised to the caller, a [KeyError] naming the data point when that
    key is missing. *)
Theorem C2_write_confirmation wo c w response c1 w1 :
  label_known wo = true →
  write_dispatch wo c w = (Ok response, c1, w1) →
  let '(r, c', w') := run_write wo c w in
  w' = w1
  ∧ (∀ stateTexts status,
       py_getitem response "stateTexts" = Ok stateTexts →
       py_getitem stateTexts (write_path wo) = Ok status →
       (status = PStr "Success" →
          match write_value wo with
          | Some v => r = Ok () ∧ data c' = <[write_field wo := v]> (data c)
          | None => r = Err ValueError ∧ data c' = data c
          end)
       ∧ (status ≠ PStr "Success" → r = Ok () ∧ data c' = data c))
  ∧ (∀ e,
       py_getitem response "stateTexts" = Err e
       ∨ (∃ stateTexts,
            py_getitem response "stateTexts" = Ok stateTexts
            ∧ py_getitem stateTexts (write_path wo) = Err e) →
       r = Err e ∧ data c' = data c)
  ∧ (∀ d stateTexts,
       response = PDict d →
       d !! "stateTexts" = Some (PDict stateTexts) →
       stateTexts !! write_path wo = None →
       r = Err (KeyError (write_path wo)) ∧ data c' = data c).
Proof.
  intros Hknown Hdisp.
  assert (data c1 = data c) as Hdata.
  { pose proof (generic_request_client "PUT"
      (get_escaped_datapoints_url (write_path wo))
      (Some (put_body (write_payload wo))) c w) as Hc.
    unfold write_dispatch in Hdisp. rewrite Hdisp in Hc. cbn in Hc.
    by rewrite Hc, own_session_data. }
  unfold write_dispatch in Hdisp.
  destruct wo as [temp|temp|mode|state];
    cbn [label_known run_write write_path write_field write_value
         write_payload] in *.
  3: apply bool_decide_eq_true, mode_switcher_known in Hknown.
  4: apply bool_decide_eq_true, state_switcher_known in Hknown.
  all: unfold set_home_temp, set_away_temp, set_mode, set_heater_state;
    cbv zeta; rewrite ?Hknown.
  all: unfold write_confirmed, data_setitem, py_float; unfold_M.
  all: rewrite Hdisp; cbv beta iota.
  all: destruct (py_getitem response "stateTexts") as [st|e1] eqn:Hst;
    cbv beta iota.
  all: try (match goal with
            | |- context [match py_getitem ?s ?k with _ => _ end] =>
                destruct (py_getitem s k) as [status|e2] eqn:Hstatus
            end; cbv beta iota).
  all: try (destruct (py_eq_str status "Success") eqn:Hsucc; cbv beta iota).
  all: try (destruct (float temp) as [f|] eqn:Hfloat; cbv beta iota).
  all: try (apply py_eq_str_true in Hsucc as ->).
  all: try (assert (status ≠ PStr "Success")
              by (intros ?%py_eq_str_true; congruence)).
  all: split; [done|].
  all: repeat split.
  all: intros; destruct_or?; destruct_and?;
    repeat match goal with H : ∃ _, _ |- _ => destruct H as (? & ? & ?) end;
    simplify_eq/=; unify_eqs; rewrite ?Hdata; try done; try congruence.
  all: unfold py_getitem in *; repeat case_match; simplify_eq/=; done.
Qed.

(** ** What every operation does to the credential and the session *)

Lemma request_for_bearer method url body c req :
  String.eqb method "POST" = false →
  request_for method url body c = Ok req →
  req_method req ≠ "POST"
  ∧ ∃ t, token c = PStr t
         ∧ req_headers req !! "Authorization" = Some ("Bearer " +:+ t).
Proof.
  unfold request_for, get_headers. intros ->.
  destruct (token c); try discriminate.
  destruct (String.eqb method "PUT"); intros [= <-]; cbn.
  all: split; [discriminate|eexists; split; [done|by simplify_map_eq]].
Qed.

Lemma generic_request_requests method url body c w req :
  req ∈ requests_in (new_events w (_generic_request method url body c w).2) →
  request_for method url body c = Ok req.
Proof.
  rewrite generic_request_dispatch. dispatch_cases.
  all: cbn [snd]; simpl_events.
  all: intros Hin; pick_request Hin; done.
Qed.

Lemma generic_request_session_step method url body c w :
  let '(_, c', w') := _generic_request method url body c w in
  session_step c w c' w'.
Proof.
  rewrite generic_request_dispatch. dispatch_cases.
  all: unfold session_step; rewrite Hsess; cbn [trace log answered sessions].
  all: eexists; (split; [rewrite <- ?app_assoc; try reflexivity;
                         by rewrite app_nil_r|]).
  all: cbn; auto.
Qed.

Lemma session_step_caches c w c1 w1 c' :
  session_step c w c1 w1 → same_but_caches c1 c' → session_step c w c' w1.
Proof. intros Hstep (d & i & ->). exact Hstep. Qed.

Lemma after_dispatch method url body (k : pyval pyfloat → M unit) c w :
  (∀ response c1 w1,
     (k response c1 w1).2 = w1 ∧ same_but_caches c1 (k response c1 w1).1.2) →
  (bind (_generic_request method url body) k c w).2
  = (_generic_request method url body c w).2
  ∧ same_but_caches (_generic_request method url body c w).1.2
                    (bind (_generic_request method url body) k c w).1.2.
Proof.
  intros Hk. unfold bind.
  destruct (_generic_request method url body c w) as [[[response|e] c1] w1].
  - apply Hk.
  - split; [done|apply same_but_caches_refl].
Qed.

(** A read or a write is a silent return or one dispatcher call, not a
    token request, followed by updates of the caches only. *)
Lemma run_op_dispatches o c w :
  is_read_or_write o = true →
  run_op o c w = (Ok (), c, w)
  ∨ ∃ method url body,
      String.eqb method "POST" = false
      ∧ (run_op o c w).2 = (_generic_request method url body c w).2
      ∧ same_but_caches (_generic_request method url body c w).1.2
                        (run_op o c w).1.2.
Proof.
  destruct o as [| | |temp|temp|mode|state|]; try discriminate; intros _;
    cbn [run_op].
  all: unfold update_data, update_device_info, set_home_temp, set_away_temp,
         set_mode, set_heater_state; cbv zeta.
  all: try (destruct (_ =? -1); [by left|]).
  all: right.
  1,2: exists "GET"; eexists _, _; (split; [done|]).
  3-6: exists "PUT"; eexists _, _; (split; [done|]).
  all: apply after_dispatch; intros response c1 w1.
  all: unfold write_confirmed, data_setitem, py_float; unfold_M.
  all: repeat case_match; simplify_eq/=.
  all: eauto using same_but_caches_refl, same_but_caches_data,
                   same_but_caches_device_info.
Qed.

(** C1, as the code has it: no read or write operation performs the
    ensure-token step.  Each leaves the token and the refresh date as they
    were and sends no token request; whatever it puts on the wire carries
    the token that was already stored. *)
Theorem C1_operations_use_stored_token o c w :
  is_read_or_write o = true →
  let '(_, c', w') := run_op o c w in
  token c' = token c
  ∧ token_refreshdate c' = token_refreshdate c
  ∧ (∀ req, req ∈ requests_in (new_events w w') →
       req_method req ≠ "POST"
       ∧ ∃ t, token c = PStr t
              ∧ req_headers req !! "Authorization" = Some ("Bearer " +:+ t)).
Proof.
  intros Hrw.
  destruct (run_op_dispatches o c w Hrw) as [->|(m & u & b & Hm & Hw & Hc)].
  { rewrite new_events_refl. split; [done|split; [done|]].
    intros req []%elem_of_nil. }
  destruct (run_op o c w) as [[r c'] w']. cbn [fst snd] in *. subst w'.
  destruct Hc as (d & i & ->). rewrite generic_request_client.
  split; [|split].
  - unfold own_session. by destruct (_session c).
  - unfold own_session. by destruct (_session c).
  - intros req Hin%generic_request_requests.
    by apply (request_for_bearer m u b).
Qed.

(** ** Session ownership *)

Lemma session_step_refl c w : session_step c w c w.
Proof.
  exists []. split; [by rewrite app_nil_r|].
  destruct (_session c); auto.
Qed.

Lemma set_token_session_step c w :
  let '(_, c', w') := set_token c w in session_step c w c' w'.
Proof.
  unfold set_token, token_request, date_today. unfold_M. cbv beta iota.
  destruct (token_refreshdate c =? today w); [|apply session_step_refl].
  pose proof (generic_request_session_step "POST" TOKEN_PATH
                (Some (get_token_body c)) c w) as Hstep.
  destruct (_generic_request _ _ _ c w) as [[[response|e] c1] w1];
    cbv beta iota; [|done].
  destruct (py_getitem response "access_token"); cbv beta iota; exact Hstep.
Qed.

Lemma close_session_step c w :
  let '(_, c', w') := close c w in session_step c w c' w'.
Proof.
  unfold close, session_close. unfold_M. cbv beta iota.
  destruct (_session c) as [sid|] eqn:Hsess; [|apply session_step_refl].
  destruct (_close_session c) eqn:Hflag; [|apply session_step_refl].
  unfold session_step. rewrite Hsess. cbn. eauto 10.
Qed.

Lemma run_op_session_step o c w :
  let '(_, c', w') := run_op o c w in session_step c w c' w'.
Proof.
  destruct (is_read_or_write o) eqn:Hrw.
  - destruct (run_op_dispatches o c w Hrw)
      as [->|(m & u & b & _ & Hw & Hc)]; [apply session_step_refl|].
    pose proof (generic_request_session_step m u b c w) as Hstep.
    destruct (run_op o c w) as [[r c'] w'].
    destruct (_generic_request m u b c w) as [[r1 c1] w1].
    cbn [fst snd] in *. subst w'. by eapply session_step_caches.
  - destruct o; try discriminate; cbn [run_op].
    + apply set_token_session_step.
    + apply close_session_step.
Qed.

Lemma requests_in_app (evs1 evs2 : list (@event pyfloat)) :
  requests_in (evs1 ++ evs2) = requests_in evs1 ++ requests_in evs2.
Proof. unfold requests_in. apply omap_app. Qed.

(** A caller-supplied session: the flag stays down and no session of the
    world changes state. *)
Lemma run_ops_supplied os c w sid :
  _session c = Some sid → _close_session c = false →
  let '(c', w') := run_ops os c w in
  _session c' = Some sid ∧ _close_session c' = false
  ∧ sessions w' = sessions w.
Proof.
  revert c w. induction os as [|o os IH]; intros c w Hsess Hflag; [done|].
  cbn [run_ops].
  pose proof (run_op_session_step o c w) as Hstep.
  destruct (run_op o c w) as [[r c1] w1].
  destruct Hstep as (evs & _ & Hstep). rewrite Hsess in Hstep.
  destruct Hstep as (Hsess1 & Hflag1 & [Hsame|[? _]]); [|congruence].
  specialize (IH c1 w1 Hsess1 ltac:(congruence)).
  destruct (run_ops os c1 w1) as [c' w']. by rewrite <- Hsame.
Qed.

Lemma session_step_owns w0 c w c' w' :
  owns_its_session w0 c w → session_step c w c' w' →
  owns_its_session w0 c' w'.
Proof.
  intros (Hold & evs & Htrace & Hown) (evs' & Htrace' & Hstep).
  unfold owns_its_session.
  assert (length (sessions w0) ≤ length (sessions w))%nat as Hlen.
  { rewrite <- Hold at 1. rewrite length_take. lia. }
  destruct (_session c) as [sid|].
  - destruct Hown as (Hflag & Hsid).
    destruct Hstep as (-> & Hflag' & [Hsame|[_ Hclosed]]).
    + rewrite Hsame. split; [done|].
      exists (evs ++ evs'). rewrite Htrace', Htrace, app_assoc.
      split; [done|]. split; [congruence|done].
    + rewrite Hclosed, length_insert. split.
      * by rewrite take_insert_ge by lia.
      * exists (evs ++ evs'). rewrite Htrace', Htrace, app_assoc.
        split; [done|]. split; [congruence|done].
  - destruct Hown as (Hflag & Hnone).
    destruct Hstep as [(-> & Hflag' & Hsame & Hnone')|(-> & Hflag' & Hnew)].
    + rewrite Hsame. split; [done|].
      exists (evs ++ evs'). rewrite Htrace', Htrace, app_assoc.
      split; [done|]. split; [congruence|].
      by rewrite requests_in_app, Hnone, Hnone'.
    + rewrite Hnew, length_app. split.
      * by rewrite take_app_le.
      * exists (evs ++ evs'). rewrite Htrace', Htrace, app_assoc.
        split; [done|]. split; [done|]. cbn. lia.
Qed.

Lemma run_ops_owns os w0 c w :
  owns_its_session w0 c w →
  let '(c', w') := run_ops os c w in owns_its_session w0 c' w'.
Proof.
  revert c w. induction os as [|o os IH]; intros c w Hown; [done|].
  cbn [run_ops].
  pose proof (run_op_session_step o c w) as Hstep.
  destruct (run_op o c w) as [[r c1] w1].
  apply IH. by eapply session_step_owns.
Qed.

(** C9: a client constructed with a caller's session never closes it,
    whatever was called in between: [close] does nothing and every session
    of the world is as it was.  A client constructed without one closes
    exactly the session it created for its first request, leaves the
    sessions that existed before alone, and has nothing to close if it
    never sent a request. *)
Theorem C9_session_ownership os username password api_key w0 :
  (∀ sid,
     let '(c, w) :=
       run_ops os (__init__ username password api_key (Some sid) w0) w0 in
     let '(r, _, w') := close c w in
     r = Ok () ∧ w' = w ∧ sessions w' = sessions w0)
  ∧ (let '(c, w) :=
       run_ops os (__init__ username password api_key None w0) w0 in
     let '(r, _, w') := close c w in
     r = Ok ()
     ∧ (∀ i, (i < length (sessions w0))%nat →
          sessions w' !! i = sessions w0 !! i)
     ∧ match _session c with
       | Some sid =>
           (length (sessions w0) ≤ sid)%nat
           ∧ sessions w' !! sid = Some SessionClosed
       | None => w' = w ∧ requests_in (new_events w0 w) = []
       end).
Proof.
  split.
  - intros sid.
    pose proof (run_ops_supplied os
      (__init__ username password api_key (Some sid) w0) w0 sid
      eq_refl eq_refl) as Hinv.
    destruct (run_ops os _ w0) as [c w].
    destruct Hinv as (Hsess & Hflag & Hsame).
    unfold close. unfold_M. cbv beta iota. by rewrite Hsess, Hflag.
  - assert (owns_its_session w0
              (__init__ username password api_key None w0) w0) as Hinit.
    { split; [by rewrite take_ge|]. exists []. by rewrite app_nil_r. }
    pose proof (run_ops_owns os w0 _ w0 Hinit) as Hinv.
    destruct (run_ops os _ w0) as [c w].
    destruct Hinv as (Hold & evs & Htrace & Hown).
    unfold close, session_close. unfold_M. cbv beta iota.
    destruct (_session c) as [sid|].
    + destruct Hown as (-> & Hlo & Hhi). cbn [sessions log].
      split; [done|]. split; [|split; [done|]].
      * intros i Hi. rewrite list_lookup_insert_ne by lia.
        by rewrite <- Hold, lookup_take_lt.
      * by apply list_lookup_insert_eq.
    + destruct Hown as (_ & Hnone). split; [done|]. split; [|split; [done|]].
      * intros i Hi. by rewrite <- Hold, lookup_take_lt.
      * by rewrite (new_events_app _ _ _ Htrace).
Qed.

(** ** Strings *)

Lemma string_app_cons a (s t : string) : String a s +:+ t = String a (s +:+ t).
Proof. reflexivity. Qed.


Lemma string_app_assoc (s1 s2 s3 : string) :
  (s1 +:+ s2) +:+ s3 = s1 +:+ (s2 +:+ s3).
Proof.
  induction s1 as [|a s1 IH]; [done|]. by rewrite !string_app_cons, IH.
Qed.

Lemma prefix_spec (s1 s2 : string) :
  String.prefix s1 s2 = true ↔ ∃ rest, s2 = s1 +:+ rest.
Proof.
  revert s2. induction s1 as [|a s1 IH]; intros s2.
  - destruct s2; cbn; split; eauto.
  - setoid_rewrite string_app_cons. destruct s2 as [|b s2]; cbn.
    + split; [discriminate|]. by intros [rest ?].
    + destruct (Ascii.ascii_dec a b) as [->|Hne].
      * rewrite IH. split; intros [rest ?]; exists rest; congruence.
      * split; [discriminate|]. intros [rest ?]. congruence.
Qed.

(** [str_in] is the substring test of Python's [in]. *)
Lemma str_in_spec (needle hay : string) :
  str_in needle hay = true ↔ ∃ before after, hay = before +:+ needle +:+ after.
Proof.
  induction hay as [|a hay IH]; cbn [str_in].
  - rewrite orb_false_r, prefix_spec. split.
    + intros [rest ->]. by exists "", rest.
    + intros ([|b before] & after & Heq); [by exists after|discriminate].
  - rewrite orb_true_iff, prefix_spec, IH. split.
    + intros [[rest Heq]|(before & after & ->)].
      * by exists "", rest.
      * by exists (String a before), after.
    + intros ([|b before] & after & Heq).
      * left. by exists after.
      * right. exists before, after. rewrite string_app_cons in Heq. congruence.
Qed.

(** ** More on the dispatcher *)

(** X1: every request the dispatcher makes has as its URL the reference
    it was given, joined by yarl onto the base built from the fixed scheme
    and host, and carries the subscription key.  The token request carries
    no [Authorization] header; every other request carries the token
    headers plus [Authorization: Bearer <token>]. *)
Theorem X1_request_headers method url body c w :
  Forall (λ req,
      req_url req = URL_join (URL_build SCHEME HOST) (URL url)
      ∧ req_headers req !! "Ocp-Apim-Subscription-Key" = Some (api_key c)
      ∧ (∀ key, key ≠ "Authorization" →
           req_headers req !! key = get_token_headers c !! key)
      ∧ if String.eqb method "POST"
        then req_headers req !! "Authorization" = None
        else ∃ t, token c = PStr t
                  ∧ req_headers req !! "Authorization"
                    = Some ("Bearer " +:+ t))
    (requests_in (new_events w (_generic_request method url body c w).2)).
Proof.
  apply Forall_forall. intros req Hreq%generic_request_requests.
  unfold request_for, get_headers in Hreq.
  destruct (String.eqb method "POST").
  - injection Hreq as <-. cbn. unfold get_token_headers.
    split_and!; try done; by simplify_map_eq.
  - destruct (token c) as [| | | |t| |]; try discriminate.
    assert (req_headers req
            = <["Authorization" := "Bearer " +:+ t]> (get_token_headers c)
            ∧ req_url req = URL_join (URL_build SCHEME HOST) (URL url))
      as (Hh & ?).
    { by destruct (String.eqb method "PUT"); injection Hreq as <-. }
    rewrite Hh. split_and!; try done.
    all: try (intros key Hkey; by rewrite lookup_insert_ne).
    all: try (exists t; by rewrite lookup_insert_eq).
    all: unfold get_token_headers; by simplify_map_eq.
Qed.

(** X2: the dispatcher knows three verbs.  ["POST"] and ["PUT"] go out as
    such with the body; any other method string goes out as a GET and the
    body is dropped. *)
Theorem X2_method_routing method url body c w :
  Forall (λ req,
      if String.eqb method "POST"
      then req_method req = "POST" ∧ req_data req = body
      else if String.eqb method "PUT"
      then req_method req = "PUT" ∧ req_data req = body
      else req_method req = "GET" ∧ req_data req = None)
    (requests_in (new_events w (_generic_request method url body c w).2)).
Proof.
  apply Forall_forall. intros req Hreq%generic_request_requests.
  unfold request_for in Hreq.
  destruct (String.eqb method "POST"); [by injection Hreq as <-|].
  destruct (get_headers c); [|discriminate].
  by destruct (String.eqb method "PUT"); injection Hreq as <-.
Qed.

(** X3: the events of one dispatcher call.  A client without a session
    first makes one, even if nothing is sent afterwards; then comes at most
    one request, through the client's session, followed by at most one read
    of the body.  No session is closed. *)
Theorem X3_dispatcher_events method url body c w :
  let '(_, c', w') := _generic_request method url body c w in
  ∃ rest,
    new_events w w'
    = match _session c with
      | Some _ => []
      | None => [ev_new_session (length (sessions w))]
      end ++ rest
    ∧ (rest = []
       ∨ ∃ sid req rep,
           _session c' = Some sid
           ∧ (rest = [ev_request sid req rep]
              ∨ rest = [ev_request sid req rep; ev_json]
              ∨ rest = [ev_request sid req rep; ev_text])).
Proof.
  rewrite generic_request_dispatch. dispatch_cases; simpl_events.
  all: cbn [_session with_session]; rewrite ?Hsess.
  all: eexists; (split; [reflexivity|]); eauto 10.
Qed.

(** X4: the handlers catch timeouts and client errors only.  Any other
    exception raised while the request is in flight reaches the caller as
    it is. *)
Theorem X4_other_exceptions_propagate method url body c w sid req rep e :
  let '(r, _, w') := _generic_request method url body c w in
  ev_request sid req rep ∈ new_events w w' →
  reply_outcome rep = Raises e →
  is_TimeoutError e = false →
  is_ClientError_or_gaierror e = false →
  r = Err e.
Proof.
  rewrite generic_request_dispatch. dispatch_cases; simpl_events.
  all: intros Hin Hout Htime Hclient; pick_request Hin.
  all: unfold classify; by rewrite Htime, Hclient.
Qed.

(** X5: the content-type guard is a substring test.  For a response that
    passed the status check, [response.json()] is called, and its result is
    the dispatcher's, exactly when the declared content type contains
    [application/json] somewhere; a missing header counts as empty. *)
Theorem X5_json_by_substring method url body c w sid req rep resp :
  let '(r, _, w') := _generic_request method url body c w in
  ev_request sid req rep ∈ new_events w w' →
  reply_outcome rep = Responds resp →
  resp_status resp < 400 →
  (ev_json ∈ new_events w w'
   ↔ ∃ before after,
       default "" (resp_content_type resp)
       = before +:+ "application/json" +:+ after)
  ∧ (ev_json ∈ new_events w w' → r = resp_json resp).
Proof.
  rewrite generic_request_dispatch. dispatch_cases; simpl_events.
  all: intros Hin Hout Hlt; pick_request Hin.
  all: try (apply Z.leb_le in Hstatus; lia).
  all: rewrite <- str_in_spec; fold (declares_json resp); rewrite Hjson.
  all: rewrite ?elem_of_cons, !elem_of_nil.
  all: split; [split|]; try done.
  all: try (intros; destruct_or?; by simplify_eq).
  all: auto.
Qed.

(** ** More on the operations *)

Lemma own_session_client c w :
  ∃ s f, (own_session c w).1.2 = with_session s f c.
Proof.
  unfold own_session. destruct (_session c) eqn:Hsess; cbn; [|eauto].
  exists (_session c), (_close_session c). by destruct c.
Qed.

(** Everything a dispatcher call does besides computing its result. *)
Lemma generic_request_effects method url body c w :
  let '(_, c', w') := _generic_request method url body c w in
  (∃ s f, c' = with_session s f c)
  ∧ today w ≤ today w'
  ∧ (is_Some (_session c) → sessions w' = sessions w)
  ∧ ∃ evs,
      trace w' = trace w ++ evs
      ∧ (length (requests_in evs) ≤ 1)%nat
      ∧ Forall (λ req, request_for method url body c = Ok req)
          (requests_in evs)
      ∧ session_events c c' evs.
Proof.
  pose proof (own_session_client c w) as Hclient. revert Hclient.
  rewrite generic_request_dispatch. dispatch_cases.
  all: cbn [fst snd]; intros Hclient; (split; [exact Hclient|]).
  all: cbn [today trace log answered sessions]; (split; [lia|]).
  all: (split; [by intros []|]).
  all: eexists; (split; [rewrite <- ?app_assoc; try reflexivity;
                         by rewrite app_nil_r|]).
  all: unfold session_events; rewrite Hsess; cbn.
  all: split_and!; eauto 10 using Forall_nil, Forall_cons with lia.
Qed.

(** Name the result of the dispatcher call in the goal, with what is known
    about it. *)
Ltac with_dispatcher :=
  match goal with
  | |- context [_generic_request ?m ?u ?b ?c ?w] =>
      let H := fresh "H" in
      pose proof (generic_request_effects m u b c w) as H;
      destruct (_generic_request m u b c w) as [[[?response|?e] ?c1] ?w1];
      destruct H as ((?s & ?f & ->) & ?Hday & _ & ?evs & ?Htrace & ?Hone
                     & ?Hreqs & ?Hsess)
  end.

Ltac unfold_ops :=
  unfold update_data, update_device_info, set_home_temp, set_away_temp,
    set_mode, set_heater_state, set_token, token_request, close,
    session_close, date_today, write_confirmed, data_setitem, py_float;
  cbv zeta; unfold_M; cbv beta iota.

Lemma session_events_nil c c' :
  _session c' = _session c → session_events c c' [].
Proof.
  unfold session_events. intros ->. destruct (_session c); cbn; auto.
Qed.

Lemma request_for_line method url body c req :
  request_for method url body c = Ok req →
  req_url req = request_url url
  ∧ req_method req
    = (if String.eqb method "POST" then "POST"
       else if String.eqb method "PUT" then "PUT" else "GET")
  ∧ req_data req
    = (if String.eqb method "POST" || String.eqb method "PUT"
       then body else None).
Proof.
  unfold request_for. destruct (String.eqb method "POST").
  { by intros [= <-]. }
  destruct (get_headers c); [|discriminate].
  by destruct (String.eqb method "PUT"); intros [= <-].
Qed.

Lemma switcher_code (switcher : gmap string Z) label :
  (default (-1) (switcher !! label) =? -1) = false →
  ∃ code, switcher !! label = Some code
          ∧ default (-1) (switcher !! label) = code.
Proof. destruct (switcher !! label); [eauto|discriminate]. Qed.

(** Everything an operation does besides computing its result. *)
Lemma run_op_effects o c w :
  let '(r, c', w') := run_op o c w in
  (username c' = username c ∧ password c' = password c
   ∧ api_key c' = api_key c ∧ request_timeout c' = request_timeout c)
  ∧ keeps_caches o c c'
  ∧ (r ≠ Ok () →
       data c' = data c ∧ device_info c' = device_info c
       ∧ token c' = token c ∧ token_refreshdate c' = token_refreshdate c)
  ∧ (o ≠ op_set_token →
       token c' = token c ∧ token_refreshdate c' = token_refreshdate c)
  ∧ today w ≤ today w'
  ∧ ∃ evs,
      trace w' = trace w ++ evs
      ∧ (length (requests_in evs) ≤ 1)%nat
      ∧ Forall (sends o c) (requests_in evs)
      ∧ session_events c c' evs.
Proof.
  destruct o; cbn [run_op keeps_caches sends]; unfold_ops.
  all: try (destruct (_ =? _) eqn:Hgate).
  all: try (apply switcher_code in Hgate as (code & Hcode & ->)).
  all: try with_dispatcher; cbv beta iota.
  all: repeat (case_match; cbv beta iota); simplify_eq/=.
  all: split_and!; try done; try lia.
  all: try (intros key Hkey; by rewrite lookup_insert_ne).
  all: try (eexists; split; [first [exact Htrace|by rewrite app_nil_r
                                   |reflexivity]|]).
  all: try (split_and!; try done; try (cbn; lia);
            try by apply session_events_nil).
  all: try (eapply Forall_impl; [exact Hreqs|];
            intros req (Huri & Hmethod & Hdata)%request_for_line;
            cbn in Huri, Hmethod, Hdata; unfold sends; by eauto 10).
Qed.

(** X6: a call that raises has changed neither cache nor credential: every
    assignment of an operation comes after the last step that can fail. *)
Theorem X6_failed_call_changes_nothing o c w :
  let '(r, c', _) := run_op o c w in
  r ≠ Ok () →
  data c' = data c ∧ device_info c' = device_info c
  ∧ token c' = token c ∧ token_refreshdate c' = token_refreshdate c.
Proof.
  pose proof (run_op_effects o c w) as H.
  destruct (run_op o c w) as [[r c'] w']. by destruct H as (_ & _ & H & _).
Qed.

(** X7: each operation leaves alone what is not its own: the credential
    operations both caches, a read the other cache, a write the device
    info and every field of the state cache but the one it sets. *)
Theorem X7_operations_keep_other_fields o c w :
  let '(_, c', _) := run_op o c w in keeps_caches o c c'.
Proof.
  pose proof (run_op_effects o c w) as H.
  destruct (run_op o c w) as [[r c'] w']. by destruct H as (_ & H & _).
Qed.

(** X8: one call sends at most one request: nothing is retried, whatever
    the outcome. *)
Theorem X8_one_request_per_call o c w :
  (length (requests_in (new_events w (run_op o c w).2)) ≤ 1)%nat.
Proof.
  pose proof (run_op_effects o c w) as H.
  destruct (run_op o c w) as [[r c'] w'].
  destruct H as (_ & _ & _ & _ & _ & evs & Htrace & Hone & _).
  cbn [snd]. by rewrite (new_events_app _ _ _ Htrace).
Qed.

(** X9: the request of each operation.  Whatever an operation sends is the
    request of its row in [sends]: the token POST with the credentials as
    body, a GET without body whose reference is the batched query, or a PUT
    of [{"Value": "..."}] whose reference is the escaped data point, with
    the integer code of the label for mode and heater state.  The
    reference is the string handed to [URL(...)]; how yarl re-quotes and
    resolves it is not part of the statement. *)
Theorem X9_wire_format o c w :
  Forall (sends o c) (requests_in (new_events w (run_op o c w).2)).
Proof.
  pose proof (run_op_effects o c w) as H.
  destruct (run_op o c w) as [[r c'] w'].
  destruct H as (_ & _ & _ & _ & _ & evs & Htrace & _ & Hsends & _).
  cbn [snd]. by rewrite (new_events_app _ _ _ Htrace).
Qed.

(** ** Sequences of calls *)

Lemma sessions_made_app (evs1 evs2 : list (@event pyfloat)) :
  sessions_made (evs1 ++ evs2) = sessions_made evs1 ++ sessions_made evs2.
Proof. apply omap_app. Qed.

Lemma sessions_used_app (evs1 evs2 : list (@event pyfloat)) :
  sessions_used (evs1 ++ evs2) = sessions_used evs1 ++ sessions_used evs2.
Proof. apply omap_app. Qed.

Lemma session_events_app c c1 c' evs1 evs2 :
  session_events c c1 evs1 → session_events c1 c' evs2 →
  session_events c c' (evs1 ++ evs2).
Proof.
  unfold session_events.
  rewrite sessions_made_app, sessions_used_app.
  destruct (_session c) as [sid|].
  - intros (-> & -> & Hused1) (-> & -> & Hused2).
    split_and!; [done..|by apply Forall_app].
  - intros [(-> & -> & ->)|(sid & -> & -> & Hused1)]; [done|].
    intros (-> & -> & Hused2). right. exists sid.
    split_and!; [done..|by apply Forall_app].
Qed.

Lemma run_ops_session_events os c w :
  let '(c', w') := run_ops os c w in
  ∃ evs, trace w' = trace w ++ evs ∧ session_events c c' evs.
Proof.
  revert c w. induction os as [|o os IH]; intros c w; cbn [run_ops].
  { exists []. split; [by rewrite app_nil_r|by apply session_events_nil]. }
  pose proof (run_op_effects o c w) as H.
  destruct (run_op o c w) as [[r c1] w1].
  destruct H as (_ & _ & _ & _ & _ & evs1 & Htrace1 & _ & _ & Hsess1).
  specialize (IH c1 w1). destruct (run_ops os c1 w1) as [c' w'].
  destruct IH as (evs2 & Htrace2 & Hsess2).
  exists (evs1 ++ evs2). split; [by rewrite Htrace2, Htrace1, app_assoc|].
  by eapply session_events_app.
Qed.

(** X10: one client, one session.  Over any sequence of calls, a client
    that was given a session makes none and sends every request through
    the one it was given; a client that was given none makes at most one
    and sends every request through that one. *)
Theorem X10_one_session os c w :
  let '(c', w') := run_ops os c w in
  match _session c with
  | Some sid =>
      _session c' = Some sid
      ∧ sessions_made (new_events w w') = []
      ∧ Forall (eq sid) (sessions_used (new_events w w'))
  | None =>
      (_session c' = None
       ∧ sessions_made (new_events w w') = []
       ∧ sessions_used (new_events w w') = [])
      ∨ ∃ sid,
          _session c' = Some sid
          ∧ sessions_made (new_events w w') = [sid]
          ∧ Forall (eq sid) (sessions_used (new_events w w'))
  end.
Proof.
  pose proof (run_ops_session_events os c w) as H.
  destruct (run_ops os c w) as [c' w'].
  destruct H as (evs & Htrace & Hsess).
  by rewrite (new_events_app _ _ _ Htrace).
Qed.

(** X11: the configuration is fixed at construction: no sequence of calls
    changes the user name, the password, the API key or the timeout. *)
Theorem X11_configuration_is_immutable os c w :
  let '(c', _) := run_ops os c w in
  username c' = username c ∧ password c' = password c
  ∧ api_key c' = api_key c ∧ request_timeout c' = request_timeout c.
Proof.
  revert c w. induction os as [|o os IH]; intros c w; cbn [run_ops]; [done|].
  pose proof (run_op_effects o c w) as H.
  destruct (run_op o c w) as [[r c1] w1].
  destruct H as ((Hu & Hp & Hk & Ht) & _).
  specialize (IH c1 w1). destruct (run_ops os c1 w1) as [c' w'].
  rewrite <- Hu, <- Hp, <- Hk, <- Ht. exact IH.
Qed.

Lemma sends_not_post o c req :
  o ≠ op_set_token → sends o c req → req_method req ≠ "POST".
Proof.
  destruct o; cbn [sends]; try done; intros _ (-> & _); discriminate.
Qed.

Lemma run_ops_overdue os c w :
  token_refreshdate c < today w →
  let '(c', w') := run_ops os c w in
  token c' = token c ∧ token_refreshdate c' = token_refreshdate c
  ∧ today w ≤ today w'
  ∧ ∃ evs, trace w' = trace w ++ evs
           ∧ Forall (λ req, req_method req ≠ "POST") (requests_in evs).
Proof.
  revert c w. induction os as [|o os IH]; intros c w Hlate; cbn [run_ops].
  { split_and!; [done|done|lia|]. exists []. by rewrite app_nil_r. }
  assert (token (run_op o c w).1.2 = token c
          ∧ token_refreshdate (run_op o c w).1.2 = token_refreshdate c
          ∧ today w ≤ today (run_op o c w).2
          ∧ ∃ evs, trace (run_op o c w).2 = trace w ++ evs
                   ∧ Forall (λ req, req_method req ≠ "POST") (requests_in evs))
    as Hstep.
  { assert (o = op_set_token ∨ o ≠ op_set_token) as [->|Hother]
      by (destruct o; (by left) || (by right)).
    - cbn [run_op]. rewrite set_token_other_date by lia. cbn.
      split_and!; [done|done|lia|]. exists []. by rewrite app_nil_r.
    - pose proof (run_op_effects o c w) as H.
      destruct (run_op o c w) as [[r c1] w1]. cbn [fst snd].
      destruct H as (_ & _ & _ & Hcred & Hday & evs & Htrace & _ & Hsends & _).
      destruct (Hcred Hother) as [-> ->]. split_and!; [done..|].
      exists evs. split; [done|].
      eapply Forall_impl; [exact Hsends|]. intros req.
      by apply sends_not_post. }
  destruct (run_op o c w) as [[r c1] w1]. cbn [fst snd] in Hstep.
  destruct Hstep as (Htok & Hdate & Hday & evs1 & Htrace1 & Hreqs1).
  specialize (IH c1 w1 ltac:(lia)). destruct (run_ops os c1 w1) as [c' w'].
  destruct IH as (-> & -> & Hday' & evs2 & Htrace2 & Hreqs2).
  split_and!; [done|done|lia|].
  exists (evs1 ++ evs2). split; [by rewrite Htrace2, Htrace1, app_assoc|].
  rewrite requests_in_app. by apply Forall_app.
Qed.

(** X12: an overdue credential is never refreshed.  The gate of
    [set_token] compares the refresh date with today for equality, so once
    today is past the refresh date no sequence of calls sends a token
    request or changes the token or the refresh date. *)
Theorem X12_overdue_token_is_never_refreshed os c w :
  token_refreshdate c < today w →
  let '(c', w') := run_ops os c w in
  token c' = token c ∧ token_refreshdate c' = token_refreshdate c
  ∧ token_refreshdate c' < today w'
  ∧ Forall (λ req, req_method req ≠ "POST") (requests_in (new_events w w')).
Proof.
  intros Hlate. pose proof (run_ops_overdue os c w Hlate) as H.
  destruct (run_ops os c w) as [c' w'].
  destruct H as (Htok & Hdate & Hday & evs & Htrace & Hreqs).
  rewrite (new_events_app _ _ _ Htrace). split_and!; [done|done|lia|done].
Qed.

(** X13: after a call of [set_token] that returned normally, calling it
    again at once sends nothing and changes nothing: either the refresh was
    not due, or the refresh date is now tomorrow. *)
Theorem X13_set_token_twice c w :
  let '(r, c', w') := set_token c w in
  r = Ok () → set_token c' w' = (Ok (), c', w').
Proof.
  destruct (decide (token_refreshdate c = today w)) as [Hdue|Hnot].
  2: { rewrite (set_token_other_date c w Hnot). intros _.
       by apply set_token_other_date. }
  unfold set_token at 1. unfold token_request, date_today. unfold_M.
  cbv beta iota. rewrite Hdue, Z.eqb_refl.
  with_dispatcher; cbv beta iota; [|done].
  destruct (py_getitem response "access_token"); cbv beta iota; [|done].
  intros _. apply set_token_other_date. cbn. lia.
Qed.

(** X14: [close] does not forget the session.  It closes the session the
    client made and leaves the client as it was, so later calls still go
    through that closed session and never open a new one. *)
Theorem X14_close_keeps_the_session c w sid :
  _session c = Some sid → _close_session c = true →
  (sid < length (sessions w))%nat →
  let '(r, c', w') := close c w in
  r = Ok () ∧ c' = c
  ∧ sessions w' !! sid = Some SessionClosed
  ∧ ∀ method url body,
      let '(_, c2, w2) := _generic_request method url body c' w' in
      _session c2 = Some sid
      ∧ sessions_made (new_events w' w2) = []
      ∧ Forall (eq sid) (sessions_used (new_events w' w2))
      ∧ sessions w2 !! sid = Some SessionClosed.
Proof.
  intros Hsess Hflag Hlt. unfold close, session_close. unfold_M.
  cbv beta iota. rewrite Hsess, Hflag.
  split_and!; [done|done|by apply list_lookup_insert_eq|].
  intros method url body.
  pose proof (generic_request_effects method url body c
                (log [ev_close_session sid]
                   (mkWorld (today w) (<[sid:=SessionClosed]> (sessions w))
                            (trace w) (network w)))) as H.
  destruct (_generic_request _ _ _ c _) as [[r2 c2] w2].
  destruct H as (_ & _ & Hsame & evs & Htrace & _ & _ & Hev).
  unfold session_events in Hev. rewrite Hsess in Hev.
  destruct Hev as (? & ? & ?). rewrite (new_events_app _ _ _ Htrace).
  split_and!; [done..|].
  rewrite Hsame by (by rewrite Hsess). by apply list_lookup_insert_eq.
Qed.

Lemma generic_request_without_str_token method url body c w :
  (∀ t, token c ≠ PStr t) → String.eqb method "POST" = false →
  ∃ s f w1,
    _generic_request method url body c w
    = (Err TypeError, with_session s f c, w1)
    ∧ requests_in (new_events w w1) = [].
Proof.
  intros Htok Hm.
  assert (∀ c', token c' = token c →
                request_for method url body c' = Err TypeError) as Hreq'.
  { intros c' Hc'. unfold request_for, get_headers. rewrite Hm, Hc'.
    destruct (token c) as [| | | |t| |] eqn:Ht; try done. by destruct (Htok t). }
  rewrite generic_request_dispatch. unfold dispatch, own_session.
  destruct (_session c) as [sid|] eqn:Hsess.
  - rewrite Hreq' by done. exists (_session c), (_close_session c), w.
    split; [by destruct c|by rewrite new_events_refl].
  - rewrite Hreq' by done. eexists _, _, _. split; [reflexivity|].
    by simpl_events.
Qed.

(** X15: a token that is not a string stops every read and write before
    anything is sent.  Building the [Authorization] header raises
    [TypeError]; the call sends no request and leaves both caches alone
    (an unknown label still returns at once). *)
Theorem X15_token_must_be_a_string o c w :
  (∀ t, token c ≠ PStr t) → is_read_or_write o = true →
  let '(r, c', w') := run_op o c w in
  requests_in (new_events w w') = []
  ∧ data c' = data c ∧ device_info c' = device_info c
  ∧ (r = Err TypeError ∨ (r = Ok () ∧ c' = c ∧ w' = w)).
Proof.
  intros Htok.
  destruct o; try discriminate; intros _; cbn [run_op]; unfold_ops.
  all: try (destruct (_ =? _);
            [rewrite new_events_refl; by split_and!; auto|]).
  all: match goal with
       | |- context [_generic_request ?m ?u ?b ?c0 ?w0] =>
           destruct (generic_request_without_str_token m u b c0 w0 Htok eq_refl)
             as (s & f & w1 & -> & Hnone)
       end.
  all: cbv beta iota; split_and!; auto.
Qed.

Lemma set_token_stores c w sid req rep resp response access_token :
  token_refreshdate c = today w →
  let '(r, c', w') := set_token c w in
  ev_request sid req rep ∈ new_events w w' →
  reply_outcome rep = Responds resp →
  resp_status resp < 400 →
  declares_json resp = true →
  resp_json resp = Ok response →
  py_getitem response "access_token" = Ok access_token →
  r = Ok () ∧ token c' = access_token.
Proof.
  intros Hdue.
  unfold set_token, token_request, date_today. unfold_M. cbv beta iota.
  rewrite Hdue, Z.eqb_refl. cbv beta iota.
  rewrite generic_request_dispatch. dispatch_cases; try discriminate.
  all: unfold request_for in *; simplify_eq/=.
  all: repeat case_match; simplify_eq/=; simpl_events.
  all: intros Hin ?????; pick_request Hin.
  all: try (apply Z.leb_le in Hstatus; lia).
  all: done.
Qed.

(** X16: the token that was acquired is the token that is sent.  After a
    refresh whose response holds the string [t] under [access_token],
    every request of a following read or write carries
    [Authorization: Bearer t]. *)
Theorem X16_acquired_token_is_sent c w o sid req rep resp response t :
  token_refreshdate c = today w →
  is_read_or_write o = true →
  let '(_, c', w') := set_token c w in
  ev_request sid req rep ∈ new_events w w' →
  reply_outcome rep = Responds resp →
  resp_status resp < 400 →
  declares_json resp = true →
  resp_json resp = Ok response →
  py_getitem response "access_token" = Ok (PStr t) →
  Forall (λ req', req_headers req' !! "Authorization"
                  = Some ("Bearer " +:+ t))
    (requests_in (new_events w' (run_op o c' w').2)).
Proof.
  intros Hdue Hrw.
  pose proof (set_token_stores c w sid req rep resp response (PStr t) Hdue)
    as Hstored.
  destruct (set_token c w) as [[r c'] w'].
  intros Hin Hout Hlt Hct Hdec Hget.
  destruct (Hstored Hin Hout Hlt Hct Hdec Hget) as [_ Htok].
  apply Forall_forall. intros req' Hreq'.
  destruct (run_op_dispatches o c' w' Hrw) as [Heq|(m & u & b & Hm & Hw & _)].
  { rewrite Heq, new_events_refl in Hreq'. by apply elem_of_nil in Hreq'. }
  rewrite Hw in Hreq'. apply generic_request_requests in Hreq'.
  destruct (request_for_bearer m u b c' req' Hm Hreq') as (_ & t' & Ht' & ->).
  congruence.
Qed.

(** ** The strings that go on the wire *)



(** X18: the token body splices the credentials in unescaped.  A user name
    that ends in [&password=s] followed by password [p] gives the same body
    as the bare user name with password [s&password=p]: the body does not
    determine the credentials. *)
Theorem X18_token_body_is_not_escaped user s p key session w :
  get_token_body (__init__ (user +:+ "&password=" +:+ s) p key session w)
  = get_token_body (__init__ user (s +:+ "&password=" +:+ p) key session w).
Proof.
  unfold get_token_body. cbn [username password __init__].
  by rewrite !string_app_assoc.
Qed.

End Properties.

(** * The pipeline on concrete inputs *)

Import Sample.

(** The [n]-th new event of a run. *)
Ltac in_events n := apply list_elem_of_lookup_2 with n; reflexivity.

(** A rejected write returns normally and caches nothing. *)
Example write_rejected_leaves_cache :
  let '(r, c', _) := set_home_temp "21.5" (fresh w_rejected) w_rejected in
  r = Ok () ∧ data c' = ∅.
Proof. vm_compute. by split. Qed.

(** A request that is not answered in time is a connection error. *)
Example timeout_is_connection_error :
  (_generic_request "GET" "/DataPoints" None (fresh w_timeout) w_timeout).1.1
  = Err timeout_error.
Proof. reflexivity. Qed.

(** A confirmed write of a temperature that is not a number raises
    [ValueError] and caches nothing. *)
Example confirmed_write_of_non_number :
  let '(r, c', _) := set_home_temp "abc" (fresh w_confirmed) w_confirmed in
  r = Err ValueError ∧ data c' = ∅.
Proof. vm_compute. by split. Qed.

(** A client error raised while the body is read is not classified. *)
Example payload_error_is_not_classified :
  (_generic_request "GET" "/DataPoints" None (fresh w_truncated)
     w_truncated).1.1
  = Err (aiohttp_ClientError ClientPayloadError).
Proof. reflexivity. Qed.

(** C1 fails on the code: on a fresh client, whose refresh is due, each of
    the six reads and writes goes on the wire without a token request
    before it; [update_data] sends its GET with an empty bearer token. *)
Lemma C1_counterexample :
  token_refreshdate (fresh w_empty) = today w_empty
  ∧ Forall (λ o, ¬ ensures_token_first (run_op o)) six_operations
  ∧ (λ req, (req_method req, req_headers req !! "Authorization"))
      <$> requests_in (new_events w_empty (update_data (fresh w_empty) w_empty).2)
    = [("GET", Some "Bearer ")].
Proof.
  split; [reflexivity|]. split; [|vm_compute; reflexivity].
  repeat constructor.
  all: intros Hclaim; specialize (Hclaim (fresh w_empty) w_empty eq_refl).
  all: vm_compute in Hclaim; destruct Hclaim as [Hpost _]; discriminate Hpost.
Qed.

Lemma C1_witness :
  is_read_or_write op_update_data = true
  ∧ let '(_, c', w') := run_op op_update_data (fresh w_empty) w_empty in
    token c' = token (fresh w_empty)
    ∧ token_refreshdate c' = token_refreshdate (fresh w_empty)
    ∧ (∀ req, req ∈ requests_in (new_events w_empty w') →
         req_method req ≠ "POST"
         ∧ ∃ t, token (fresh w_empty) = PStr t
                ∧ req_headers req !! "Authorization"
                  = Some ("Bearer " +:+ t)).
Proof.
  split; [reflexivity|].
  apply (C1_operations_use_stored_token op_update_data (fresh w_empty) w_empty).
  reflexivity.
Defined.

(** C2 fails on the code: the server answers a write with a status map that
    has no entry for the data point; the cache is left alone, but the call
    raises [KeyError] instead of returning. *)
Lemma C2_counterexample :
  let '(r, c', _) := set_home_temp "21.5" (fresh w_no_status) w_no_status in
  r = Err (KeyError HOME_AIR_TEMPERATURE_PATH)
  ∧ r ≠ Ok ()
  ∧ data c' = data (fresh w_no_status).
Proof. vm_compute. split; [reflexivity|]. split; [discriminate|reflexivity]. Qed.

Lemma C2_witness :
  let wo := write_home_temp "21.5" in
  let c := fresh w_confirmed in
  let sent := write_dispatch wo c w_confirmed in
  label_known wo = true
  ∧ sent = (Ok confirmed, sent.1.2, sent.2)
  ∧ let '(r, c', _) := run_write wo c w_confirmed in
    r = Ok ()
    ∧ data c' = <["home_air_temperature" := PFloat (215 # 10)]> (data c).
Proof.
  intros wo c sent.
  assert (sent = (Ok confirmed, sent.1.2, sent.2)) as Hsent by reflexivity.
  split; [reflexivity|]. split; [exact Hsent|].
  pose proof (C2_write_confirmation wo c w_confirmed confirmed
                sent.1.2 sent.2 eq_refl Hsent) as H.
  destruct (run_write wo c w_confirmed) as [[r c'] w'].
  destruct H as (_ & Hstatus & _).
  destruct (Hstatus (PDict (<[HOME_AIR_TEMPERATURE_PATH := PStr "Success"]> ∅))
              (PStr "Success") eq_refl eq_refl) as (Hyes & _).
  exact (Hyes eq_refl).
Defined.

(** C3 fails on the code: a 200 response declared as JSON whose body does
    not decode makes the dispatcher raise the decoder's own exception,
    which is neither of the two classified errors. *)
Lemma C3_counterexample :
  resp_status broken_json = 200
  ∧ declares_json broken_json = true
  ∧ let '(r, _, _) :=
      _generic_request "GET" "/DataPoints" None (fresh w_broken_json)
        w_broken_json in
    r = Err JSONDecodeError
    ∧ is_FlexitConnectionError JSONDecodeError = false
    ∧ is_FlexitError JSONDecodeError = false.
Proof. vm_compute. repeat split. Qed.

Lemma C3_witness :
  let c := fresh w_broken_json in
  let req := the_request "GET" "/DataPoints" None c in
  let rep := mkReply 0 (Responds broken_json) in
  let '(r, _, w') := _generic_request "GET" "/DataPoints" None c w_broken_json in
  ev_request 0 req rep ∈ new_events w_broken_json w'
  ∧ r = Err JSONDecodeError.
Proof.
  intros c req rep.
  pose proof (C3_decode_error_propagates "GET" "/DataPoints" None c
                w_broken_json 0%nat req rep broken_json JSONDecodeError) as H.
  assert (ev_request 0 req rep ∈ new_events w_broken_json
            (_generic_request "GET" "/DataPoints" None c w_broken_json).2)
    as Hin by in_events 1%nat.
  destruct (_generic_request "GET" "/DataPoints" None c w_broken_json)
    as [[r c'] w'].
  split; [exact Hin|].
  exact (H Hin eq_refl eq_refl eq_refl eq_refl).
Defined.

Lemma C4_witness :
  let c := fresh w_token in
  let req := token_request_message c in
  let rep := mkReply 0 (Responds (json_response 200 token_document)) in
  token_refreshdate c = today w_token
  ∧ let '(r, c', w') := set_token c w_token in
    ev_request 0 req rep ∈ new_events w_token w'
    ∧ requests_in (new_events w_token w') = [req]
    ∧ r = Ok ()
    ∧ token c' = PStr "t0k3n"
    ∧ token_refreshdate c' = today w' + 1.
Proof.
  intros c req rep. split; [reflexivity|].
  pose proof (C4_token_refresh_gating c w_token) as H.
  assert (ev_request 0 req rep ∈ new_events w_token (set_token c w_token).2)
    as Hin by in_events 1%nat.
  destruct (set_token c w_token) as [[r c'] w'].
  destruct H as [Hdue _].
  destruct (Hdue eq_refl) as [Hsent Hstored].
  split; [exact Hin|]. split; [exact Hsent|].
  destruct (Hstored 0%nat req rep _ token_document (PStr "t0k3n") Hin
              eq_refl eq_refl eq_refl eq_refl eq_refl) as (? & ? & _ & ?).
  done.
Defined.

(** C5 fails on the code: a response with status 304 and a JSON body is
    returned to the caller as data. *)
Lemma C5_counterexample :
  let '(r, _, w') :=
    _generic_request "GET" "/DataPoints" None (fresh w_304) w_304 in
  ev_request 0 (the_request "GET" "/DataPoints" None (fresh w_304))
    (mkReply 0 (Responds (json_response 304 (PDict ∅))))
    ∈ new_events w_304 w'
  ∧ ¬ (200 ≤ 304 < 300)
  ∧ r = Ok (PDict ∅).
Proof.
  assert (ev_request 0 (the_request "GET" "/DataPoints" None (fresh w_304))
            (mkReply 0 (Responds (json_response 304 (PDict ∅))))
          ∈ new_events w_304
              (_generic_request "GET" "/DataPoints" None (fresh w_304) w_304).2)
    as Hin by in_events 1%nat.
  assert ((_generic_request "GET" "/DataPoints" None (fresh w_304) w_304).1.1
          = Ok (PDict ∅)) as Hr by reflexivity.
  destruct (_generic_request "GET" "/DataPoints" None (fresh w_304) w_304)
    as [[r c'] w'].
  split; [exact Hin|]. split; [lia|exact Hr].
Qed.

Lemma C5_witness :
  let c := fresh w_500 in
  let req := the_request "GET" "/DataPoints" None c in
  let rep := mkReply 0 (Responds (json_response 500 (PDict ∅))) in
  let '(r, _, w') := _generic_request "GET" "/DataPoints" None c w_500 in
  ev_request 0 req rep ∈ new_events w_500 w'
  ∧ r = Err communication_error.
Proof.
  intros c req rep.
  pose proof (C5_transport_failures "GET" "/DataPoints" None c w_500
                0%nat req rep) as H.
  assert (ev_request 0 req rep ∈ new_events w_500
            (_generic_request "GET" "/DataPoints" None c w_500).2)
    as Hin by in_events 1%nat.
  destruct (_generic_request "GET" "/DataPoints" None c w_500) as [[r c'] w'].
  split; [exact Hin|].
  destruct (H Hin) as (_ & _ & _ & Hstatus & _).
  apply (Hstatus (json_response 500 (PDict ∅)) eq_refl). cbn. lia.
Defined.

(** C6 fails on the code: a 200 response declared as HTML whose text
    cannot be read makes the dispatcher raise what [response.text()]
    raised, not the protocol error. *)
Lemma C6_counterexample :
  let c := fresh w_undecodable in
  let req := the_request "GET" "/DataPoints" None c in
  let rep := mkReply 0 (Responds undecodable_page) in
  resp_status undecodable_page = 200
  ∧ declares_json undecodable_page = false
  ∧ let '(r, _, w') :=
      _generic_request "GET" "/DataPoints" None c w_undecodable in
    ev_request 0 req rep ∈ new_events w_undecodable w'
    ∧ r = Err UnicodeDecodeError
    ∧ is_FlexitError UnicodeDecodeError = false.
Proof.
  intros c req rep. split; [reflexivity|]. split; [reflexivity|].
  assert (ev_request 0 req rep ∈ new_events w_undecodable
            (_generic_request "GET" "/DataPoints" None c w_undecodable).2)
    as Hin by in_events 1%nat.
  assert ((_generic_request "GET" "/DataPoints" None c w_undecodable).1.1
          = Err UnicodeDecodeError) as Hr by reflexivity.
  destruct (_generic_request "GET" "/DataPoints" None c w_undecodable)
    as [[r c'] w'].
  split; [exact Hin|]. split; [exact Hr|reflexivity].
Qed.

Lemma C6_witness :
  let c := fresh w_html in
  let resp := html_response busy_page in
  let req := the_request "GET" "/DataPoints" None c in
  let rep := mkReply 0 (Responds resp) in
  let '(r, _, w') := _generic_request "GET" "/DataPoints" None c w_html in
  ev_request 0 req rep ∈ new_events w_html w'
  ∧ declares_json resp = false
  ∧ (ev_json ∉ new_events w_html w')
  ∧ ∃ msg details,
      r = Err (FlexitError msg details)
      ∧ details !! "Content-Type" = Some "text/html"
      ∧ details !! "response" = Some busy_page.
Proof.
  intros c resp req rep.
  pose proof (C6_content_type_guard "GET" "/DataPoints" None c w_html
                0%nat req rep resp) as H.
  assert (ev_request 0 req rep ∈ new_events w_html
            (_generic_request "GET" "/DataPoints" None c w_html).2)
    as Hin by in_events 1%nat.
  destruct (_generic_request "GET" "/DataPoints" None c w_html) as [[r c'] w'].
  split; [exact Hin|]. split; [reflexivity|].
  destruct (H Hin eq_refl eq_refl eq_refl) as (Hnot & _ & Hcarry & _).
  split; [exact Hnot|]. exact (Hcarry busy_page eq_refl).
Defined.

Lemma C7_witness :
  label_known (write_mode "Invalid") = false
  ∧ set_mode "Invalid" (fresh w_empty) w_empty = (Ok (), fresh w_empty, w_empty)
  ∧ label_known (write_heater_state "Maybe") = false
  ∧ set_heater_state "Maybe" (fresh w_empty) w_empty
    = (Ok (), fresh w_empty, w_empty).
Proof.
  split; [reflexivity|]. split.
  { apply (C7_unknown_label_is_noop (write_mode "Invalid")). reflexivity. }
  split; [reflexivity|].
  apply (C7_unknown_label_is_noop (write_heater_state "Maybe")). reflexivity.
Defined.

Lemma C8_witness :
  let c := with_data stale_cache (fresh w_empty) in
  let sent := read_dispatch read_data c w_empty in
  sent = (Ok (PDict ∅), sent.1.2, sent.2)
  ∧ read_format read_data (PDict ∅) = Ok ∅
  ∧ data c !! "filter_state" = Some (PStr "dirty")
  ∧ let '(r, c', _) := run_read read_data c w_empty in
    r = Ok () ∧ data c' = ∅ ∧ data c' !! "filter_state" = None.
Proof.
  intros c sent.
  assert (sent = (Ok (PDict ∅), sent.1.2, sent.2)) as Hsent by reflexivity.
  split; [exact Hsent|]. split; [reflexivity|]. split; [reflexivity|].
  pose proof (C8_full_replace read_data c w_empty (PDict ∅) sent.1.2 sent.2 ∅
                Hsent eq_refl) as H.
  destruct (run_read read_data c w_empty) as [[r c'] w'].
  destruct H as (Hr & _ & Hcache & Hdrop).
  split; [exact Hr|]. split; [exact Hcache|]. apply Hdrop. reflexivity.
Defined.

Lemma C9_witness :
  (let '(c, w) :=
     run_ops [op_update_data]
       (__init__ "user" "secret" "key" (Some 0%nat) w_shared) w_shared in
   let '(_, _, w') := close c w in
   sessions w' = [SessionOpen])
  ∧ (let '(c, w) :=
       run_ops [op_update_data]
         (__init__ "user" "secret" "key" None w_shared) w_shared in
     let '(_, _, w') := close c w in
     _session c = Some 1%nat
     ∧ sessions w' !! 0%nat = Some SessionOpen
     ∧ sessions w' !! 1%nat = Some SessionClosed).
Proof.
  pose proof (C9_session_ownership [op_update_data] "user" "secret" "key"
                w_shared) as [Hsupplied Hown].
  split.
  - specialize (Hsupplied 0%nat).
    destruct (run_ops _ _ w_shared) as [c w].
    destruct (close c w) as [[r c'] w']. by destruct Hsupplied as (_ & _ & ->).
  - assert (_session (run_ops [op_update_data]
              (__init__ "user" "secret" "key" None w_shared) w_shared).1
            = Some 1%nat) as Hsess by reflexivity.
    destruct (run_ops _ _ w_shared) as [c w]. cbn [fst] in Hsess.
    destruct (close c w) as [[r c'] w'].
    destruct Hown as (_ & Hold & Hnew). rewrite Hsess in Hnew.
    split; [exact Hsess|]. split; [|apply Hnew].
    rewrite Hold; [reflexivity|cbn; lia].
Defined.

(** C10 fails on the code: when midnight passes while the token request
    is in flight and the answer has no [access_token], the refresh date
    the failed call leaves is no longer today, and the next [set_token]
    sends nothing. *)
Lemma C10_counterexample :
  let c := fresh w_midnight in
  token_refreshdate c = today w_midnight
  ∧ let '(r, c', w') := set_token c w_midnight in
    r = Err (KeyError "access_token")
    ∧ token c' = token c
    ∧ token_refreshdate c' = token_refreshdate c
    ∧ token_refreshdate c' ≠ today w'
    ∧ requests_in (new_events w' (set_token c' w').2) = [].
Proof.
  intros c. split; [reflexivity|].
  assert ((set_token c w_midnight).1.1 = Err (KeyError "access_token")
          ∧ token (set_token c w_midnight).1.2 = token c
          ∧ token_refreshdate (set_token c w_midnight).1.2
            = token_refreshdate c
          ∧ today (set_token c w_midnight).2
            = token_refreshdate (set_token c w_midnight).1.2 + 1
          ∧ requests_in
              (new_events (set_token c w_midnight).2
                 (set_token (set_token c w_midnight).1.2
                    (set_token c w_midnight).2).2) = [])
    as H by (split_and!; reflexivity).
  destruct (set_token c w_midnight) as [[r c'] w']. cbn [fst snd] in H.
  destruct H as (Hr & Htok & Hdate & Hday & Hnone).
  split_and!; [exact Hr|exact Htok|exact Hdate|lia|exact Hnone].
Qed.

Lemma C10_witness :
  let c := fresh w_empty in
  let req := token_request_message c in
  let rep := mkReply 0 (Responds (json_response 200 (PDict ∅))) in
  token_refreshdate c = today w_empty
  ∧ let '(r, c', w') := set_token c w_empty in
    ev_request 0 req rep ∈ new_events w_empty w'
    ∧ r = Err (KeyError "access_token")
    ∧ token c' = token c
    ∧ token_refreshdate c' = today w'
    ∧ requests_in (new_events w' (set_token c' w').2) = [req].
Proof.
  intros c req rep. split; [reflexivity|].
  pose proof (C10_failed_acquisition_keeps_credential c w_empty 0%nat req rep
                (json_response 200 (PDict ∅)) (PDict ∅)
                (KeyError "access_token") eq_refl) as H.
  assert (ev_request 0 req rep ∈ new_events w_empty (set_token c w_empty).2)
    as Hin by in_events 1%nat.
  destruct (set_token c w_empty) as [[r c'] w'].
  split; [exact Hin|].
  destruct (H Hin eq_refl eq_refl eq_refl eq_refl eq_refl)
    as (Hr & _ & Htok & _ & _ & Hsame & _).
  destruct (Hsame eq_refl) as [Hdate Hagain].
  split; [exact Hr|]. split; [exact Htok|]. split; [exact Hdate|exact Hagain].
Defined.

(** ** The further properties on concrete inputs *)

Lemma X1_witness :
  let c := fresh w_token in
  let run :=
    _generic_request "POST" TOKEN_PATH (Some (get_token_body c)) c w_token in
  requests_in (new_events w_token run.2) = [token_request_message c]
  ∧ req_url (token_request_message c)
    = URL_join (URL_build "https" "api.flexit.example") (URL "/Token")
  ∧ req_headers (token_request_message c) !! "Ocp-Apim-Subscription-Key"
    = Some "key"
  ∧ req_headers (token_request_message c) !! "Authorization" = None.
Proof.
  intros c run.
  pose proof (X1_request_headers "POST" TOKEN_PATH (Some (get_token_body c))
                c w_token) as H.
  assert (requests_in (new_events w_token run.2) = [token_request_message c])
    as Hsent by reflexivity.
  fold run in H. rewrite Hsent in H.
  apply Forall_cons in H as [(Hurl & Hkey & _ & Hauth) _].
  split; [exact Hsent|]. split; [exact Hurl|]. split; [exact Hkey|exact Hauth].
Defined.

Lemma X2_witness :
  let c := fresh w_empty in
  let run := _generic_request "DELETE" "/DataPoints" (Some "x") c w_empty in
  let req := the_request "DELETE" "/DataPoints" (Some "x") c in
  requests_in (new_events w_empty run.2) = [req]
  ∧ req_method req = "GET" ∧ req_data req = None.
Proof.
  intros c run req.
  pose proof (X2_method_routing "DELETE" "/DataPoints" (Some "x") c w_empty)
    as H.
  assert (requests_in (new_events w_empty run.2) = [req]) as Hsent
    by reflexivity.
  fold run in H. rewrite Hsent in H.
  apply Forall_cons in H as [H _]. split; [exact Hsent|exact H].
Defined.

Lemma X4_witness :
  let c := fresh w_refused in
  let req := the_request "GET" "/DataPoints" None c in
  let rep := mkReply 0 (Raises (OtherException "RuntimeError")) in
  let '(r, _, w') := _generic_request "GET" "/DataPoints" None c w_refused in
  ev_request 0 req rep ∈ new_events w_refused w'
  ∧ r = Err (OtherException "RuntimeError").
Proof.
  intros c req rep.
  pose proof (X4_other_exceptions_propagate "GET" "/DataPoints" None c
                w_refused 0%nat req rep (OtherException "RuntimeError")) as H.
  assert (ev_request 0 req rep ∈ new_events w_refused
            (_generic_request "GET" "/DataPoints" None c w_refused).2)
    as Hin by in_events 1%nat.
  destruct (_generic_request "GET" "/DataPoints" None c w_refused)
    as [[r c'] w'].
  split; [exact Hin|]. exact (H Hin eq_refl eq_refl eq_refl).
Defined.

Lemma X5_witness :
  let c := fresh w_empty in
  let resp := json_response 200 (PDict ∅) in
  let req := the_request "GET" "/DataPoints" None c in
  let rep := mkReply 0 (Responds resp) in
  let '(r, _, w') := _generic_request "GET" "/DataPoints" None c w_empty in
  ev_request 0 req rep ∈ new_events w_empty w'
  ∧ resp_content_type resp = Some ("" +:+ "application/json" +:+ "; charset=utf-8")
  ∧ ev_json ∈ new_events w_empty w'
  ∧ r = Ok (PDict ∅).
Proof.
  intros c resp req rep.
  pose proof (X5_json_by_substring "GET" "/DataPoints" None c w_empty
                0%nat req rep resp) as H.
  assert (ev_request 0 req rep ∈ new_events w_empty
            (_generic_request "GET" "/DataPoints" None c w_empty).2)
    as Hin by in_events 1%nat.
  destruct (_generic_request "GET" "/DataPoints" None c w_empty)
    as [[r c'] w'].
  destruct (H Hin eq_refl eq_refl) as [Hiff Hresult].
  assert (ev_json ∈ new_events w_empty w') as Hjson.
  { apply Hiff. by exists "", "; charset=utf-8". }
  split; [exact Hin|]. split; [reflexivity|]. split; [exact Hjson|].
  exact (Hresult Hjson).
Defined.

Lemma X6_witness :
  let c := with_data stale_cache (fresh w_timeout) in
  let '(r, c', _) := run_op op_update_data c w_timeout in
  r = Err timeout_error ∧ data c' = stale_cache ∧ token c' = PStr "".
Proof.
  intros c.
  pose proof (X6_failed_call_changes_nothing op_update_data c w_timeout) as H.
  assert ((run_op op_update_data c w_timeout).1.1 = Err timeout_error)
    as Hr by reflexivity.
  destruct (run_op op_update_data c w_timeout) as [[r c'] w'].
  cbn [fst] in Hr. split; [exact Hr|].
  destruct H as (Hdata & _ & Htok & _); [by rewrite Hr|].
  split; [exact Hdata|exact Htok].
Defined.

Lemma X9_witness :
  let c := fresh w_confirmed in
  let req :=
    the_request "PUT" (get_escaped_datapoints_url VENTILATION_MODE_PUT_PATH)
      (Some (put_body "2")) c in
  requests_in (new_events w_confirmed
                 (run_op (op_set_mode "Away") c w_confirmed).2) = [req]
  ∧ req_method req = "PUT"
  ∧ req_url req
    = URL_join (URL_build "https" "api.flexit.example")
        (URL "/DataPoints/dp%3Bventilation_mode_put")
  ∧ req_data req = Some (put_body "2").
Proof.
  intros c req.
  pose proof (X9_wire_format (op_set_mode "Away") c w_confirmed) as H.
  assert (requests_in (new_events w_confirmed
                         (run_op (op_set_mode "Away") c w_confirmed).2)
          = [req]) as Hsent by reflexivity.
  rewrite Hsent in H. apply Forall_cons in H as [(Hm & Hurl & _) _].
  split; [exact Hsent|]. split; [exact Hm|].
  split; [rewrite Hurl|]; reflexivity.
Defined.

Lemma X12_witness :
  let c := fresh w_empty in
  let os := [op_set_token; op_update_data; op_set_token] in
  token_refreshdate c < today w_next_day
  ∧ let '(c', w') := run_ops os c w_next_day in
    token c' = PStr ""
    ∧ token_refreshdate c' < today w'
    ∧ Forall (λ req, req_method req ≠ "POST")
        (requests_in (new_events w_next_day w')).
Proof.
  intros c os.
  assert (token_refreshdate c < today w_next_day) as Hlate by reflexivity.
  split; [exact Hlate|].
  pose proof (X12_overdue_token_is_never_refreshed os c w_next_day Hlate) as H.
  destruct (run_ops os c w_next_day) as [c' w'].
  destruct H as (Htok & _ & Hdate & Hreqs).
  split; [exact Htok|]. split; [exact Hdate|exact Hreqs].
Defined.

Lemma X13_witness :
  let c := fresh w_token in
  let '(r, c', w') := set_token c w_token in
  r = Ok () ∧ token c' = PStr "t0k3n"
  ∧ set_token c' w' = (Ok (), c', w').
Proof.
  intros c.
  pose proof (X13_set_token_twice c w_token) as H.
  assert ((set_token c w_token).1.1 = Ok ()
          ∧ token (set_token c w_token).1.2 = PStr "t0k3n") as [Hr Htok]
    by (split; reflexivity).
  destruct (set_token c w_token) as [[r c'] w']. cbn [fst snd] in Hr, Htok.
  split; [exact Hr|]. split; [exact Htok|exact (H Hr)].
Defined.

Lemma X14_witness :
  let c := after_one_read.1 in
  let w := after_one_read.2 in
  _session c = Some 0%nat ∧ _close_session c = true
  ∧ sessions w = [SessionOpen]
  ∧ let '(r, c', w') := close c w in
    c' = c
    ∧ sessions w' !! 0%nat = Some SessionClosed
    ∧ let '(_, c2, w2) := _generic_request "GET" "/DataPoints" None c' w' in
      _session c2 = Some 0%nat
      ∧ sessions_made (new_events w' w2) = []
      ∧ sessions w2 !! 0%nat = Some SessionClosed.
Proof.
  intros c w.
  assert (_session c = Some 0%nat) as Hsess by reflexivity.
  assert (_close_session c = true) as Hflag by reflexivity.
  assert (sessions w = [SessionOpen]) as Hopen by reflexivity.
  split; [exact Hsess|]. split; [exact Hflag|]. split; [exact Hopen|].
  pose proof (X14_close_keeps_the_session c w 0%nat Hsess Hflag) as H.
  rewrite Hopen in H. specialize (H ltac:(cbn; lia)).
  destruct (close c w) as [[r c'] w'].
  destruct H as (_ & Hc & Hclosed & Hlater).
  split; [exact Hc|]. split; [exact Hclosed|].
  specialize (Hlater "GET" "/DataPoints" None).
  destruct (_generic_request "GET" "/DataPoints" None c' w') as [[r2 c2] w2].
  by destruct Hlater as (? & ? & _ & ?).
Defined.

Lemma X15_witness :
  let c := (set_token (fresh w_null_token) w_null_token).1.2 in
  token c = PNone
  ∧ is_read_or_write op_update_data = true
  ∧ let '(r, c', w') := run_op op_update_data c w_null_token in
    requests_in (new_events w_null_token w') = []
    ∧ (r = Err TypeError ∨ (r = Ok () ∧ c' = c ∧ w' = w_null_token)).
Proof.
  intros c.
  assert (token c = PNone) as Htok by reflexivity.
  split; [exact Htok|]. split; [reflexivity|].
  pose proof (X15_token_must_be_a_string op_update_data c w_null_token) as H.
  destruct (run_op op_update_data c w_null_token) as [[r c'] w'].
  destruct H as (Hnone & _ & _ & Hr); [by rewrite Htok|reflexivity|].
  split; [exact Hnone|exact Hr].
Defined.

Lemma X16_witness :
  let c := fresh w_token in
  let req := token_request_message c in
  let rep := mkReply 0 (Responds (json_response 200 token_document)) in
  token_refreshdate c = today w_token
  ∧ let '(_, c', w') := set_token c w_token in
    ev_request 0 req rep ∈ new_events w_token w'
    ∧ ∃ req',
        requests_in (new_events w' (run_op op_update_data c' w').2) = [req']
        ∧ req_headers req' !! "Authorization" = Some "Bearer t0k3n".
Proof.
  intros c req rep. split; [reflexivity|].
  pose proof (X16_acquired_token_is_sent c w_token op_update_data 0%nat req
                rep (json_response 200 token_document) token_document
                "t0k3n" eq_refl eq_refl) as H.
  assert (ev_request 0 req rep ∈ new_events w_token (set_token c w_token).2)
    as Hin by in_events 1%nat.
  assert (∃ req',
            requests_in
              (new_events (set_token c w_token).2
                 (run_op op_update_data (set_token c w_token).1.2
                    (set_token c w_token).2).2) = [req']) as Hsent
    by (eexists; reflexivity).
  destruct (set_token c w_token) as [[r c'] w']. cbn [fst snd] in Hsent.
  split; [exact Hin|].
  destruct Hsent as [req' Hsent]. exists req'. split; [exact Hsent|].
  specialize (H Hin eq_refl eq_refl eq_refl eq_refl eq_refl).
  rewrite Hsent in H. by apply Forall_cons in H as [H _].
Defined.

